(** * socketio: the engine.io socket, the polling transport's HTTP handler
      and the socket.io packet dispatcher

    A shallow embedding of [engine/socket.go], of the polling part of
    [engine/fasthttp.go] and of [Server.process] of the socket.io server,
    with the properties the specification states about them.

    Code that lives outside these files (implementations of the [Conn]
    interface, the emitter, the event handlers, the packet codecs, the Go
    standard library) is reached through calls only.  Every such call is
    recorded in a trace, and what it returns is supplied by the
    environment, so that the theorems hold for every behaviour of the
    callee. *)

From Stdlib Require Import ZArith NArith.
From Stdlib.Strings Require Import Byte.
From stdpp Require Import gmap strings list.

Local Open Scope Z_scope.

(** A Go [error], identified by the text its [Error()] method returns;
    [None : option error] is the nil error. *)
Definition error := string.

(** A Go [[]byte]. *)
Abbreviation bytes := (list byte).

#[global] Instance byte_eq_dec : EqDecision byte := Byte.byte_eq_dec.

(** The one-character string holding a double quote. *)
Definition dquote : string := String (Ascii.ascii_of_N 34) EmptyString.

(** [[]byte(s)] for a Go string [s]. *)
Definition bytes_of_string (s : string) : bytes := String.list_byte_of_string s.

(* ===================================================================== *)
(** ** engine: packets, events, connections                              *)
(* ===================================================================== *)

Module engine.

Inductive MessageType := MessageTypeString | MessageTypeBinary.

Inductive PacketType :=
| PacketTypeOpen | PacketTypeClose | PacketTypePing | PacketTypePong
| PacketTypeMessage | PacketTypeUpgrade | PacketTypeNoop.

(** [Packet{msgType, pktType, data}], fields in the order the composite
    literal of [emit] gives them. *)
Record Packet := mkPacket {
  msgType : MessageType;
  pktType : PacketType;
  data : bytes
}.

(** The [event] type of the engine.  Its declaration is outside the files
    embedded here; the seven names are the ones [emit] and [upgrade]
    mention, [EventOther] stands for every further value of the type. *)
Inductive event :=
| EventOpen | EventMessage | EventClose | EventError | EventUpgrade
| EventPing | EventPong
| EventOther (n : nat).

#[global] Instance MessageType_eq_dec : EqDecision MessageType.
Proof. solve_decision. Defined.
#[global] Instance PacketType_eq_dec : EqDecision PacketType.
Proof. solve_decision. Defined.
#[global] Instance event_eq_dec : EqDecision event.
Proof. solve_decision. Defined.
#[global] Instance Packet_eq_dec : EqDecision Packet.
Proof. solve_decision. Defined.

(** *** The store of connections

    A [Conn] is an interface value: a reference to an object whose methods
    the socket calls.  Connections are references [ConnId] into a store;
    two references are the same connection exactly when they are equal.
    What a method returns at its next call is read off a script kept in
    the object, one script per method; a call consumes the head. *)

Definition ConnId := nat.

Record ConnObj := mkConn {
  onReadPacket : list (Packet + error);
  onWritePacket : list (option error);
  onPause : list (option error);
  onResume : list (option error);
  onClose : list (option error)
}.

#[global] Instance ConnObj_inhabited : Inhabited ConnObj :=
  populate (mkConn [] [] [] [] []).

(** What [ReadPacket] gives once the script is used up. *)
Definition io_EOF : error := "EOF".

(** *** The trace of calls that leave [Socket] *)

Inductive Event :=
| EvSetReadDeadline (c : ConnId) (t : Z)
| EvSetWriteDeadline (c : ConnId) (t : Z)
| EvReadPacket (c : ConnId) (r : Packet + error)
| EvWritePacket (c : ConnId) (p : Packet) (r : option error)
| EvPause (c : ConnId) (r : option error)
| EvResume (c : ConnId) (r : option error)
| EvConnClose (c : ConnId) (r : option error)
| EvRLock | EvRUnlock | EvLock | EvUnlock
| EvStoreConn (c : ConnId)
| EvStoreTransport (t : string)
| EvFire (e : event) (mt : MessageType) (d : bytes)
| EvEmitterClose
| EvEmitterSubmit (p : Packet) (r : option error).

(** *** The socket *)

(** [type Socket struct].  [Conn] is the embedded interface value,
    [once] tells whether the [sync.Once] has fired.  The emitter, the
    event handlers and the mutex are objects of their own: calls to them
    appear in the trace. *)
Record Socket := mkSocket {
  Conn : ConnId;
  readTimeout : Z;
  writeTimeout : Z;
  transport : string;
  once : bool
}.

Record State := mkState {
  sock : Socket;
  conns : gmap ConnId ConnObj;
  onSubmit : list (option error);    (* results of emitter.submit *)
  clock : nat → Z;                    (* time.Now(), by trace position *)
  trace : list Event
}.

Definition with_sock (s : Socket) (st : State) : State :=
  mkState s (conns st) (onSubmit st) (clock st) (trace st).
Definition with_conns (m : gmap ConnId ConnObj) (st : State) : State :=
  mkState (sock st) m (onSubmit st) (clock st) (trace st).
Definition with_onSubmit (l : list (option error)) (st : State) : State :=
  mkState (sock st) (conns st) l (clock st) (trace st).
Definition with_trace (t : list Event) (st : State) : State :=
  mkState (sock st) (conns st) (onSubmit st) (clock st) t.

(** *** A state monad for the methods of [Socket] *)

Definition M (A : Type) : Type := State → A * State.

#[global] Instance M_ret : MRet M := λ A a st, (a, st).
#[global] Instance M_bind : MBind M :=
  λ A B f m st, let r := m st in f r.1 r.2.

Definition log (e : Event) : M unit :=
  λ st, (tt, with_trace (trace st ++ [e]) st).

(** [time.Now()]. *)
Definition time_Now : M Z := λ st, (clock st (length (trace st)), st).

(** One call of a scripted method of connection [c]: the head of the
    script is the result, the tail stays in the object. *)
Definition call {A} (dflt : A) (script : ConnObj → list A)
    (rest : list A → ConnObj → ConnObj) (c : ConnId) : M A :=
  λ st, let o := conns st !!! c in
        (hd dflt (script o),
         with_conns (<[c := rest (tl (script o)) o]> (conns st)) st).

Definition rest_ReadPacket (l : list (Packet + error)) (o : ConnObj) :=
  mkConn l (onWritePacket o) (onPause o) (onResume o) (onClose o).
Definition rest_WritePacket (l : list (option error)) (o : ConnObj) :=
  mkConn (onReadPacket o) l (onPause o) (onResume o) (onClose o).
Definition rest_Pause (l : list (option error)) (o : ConnObj) :=
  mkConn (onReadPacket o) (onWritePacket o) l (onResume o) (onClose o).
Definition rest_Resume (l : list (option error)) (o : ConnObj) :=
  mkConn (onReadPacket o) (onWritePacket o) (onPause o) l (onClose o).
Definition rest_Close (l : list (option error)) (o : ConnObj) :=
  mkConn (onReadPacket o) (onWritePacket o) (onPause o) (onResume o) l.

(** The methods of the [Conn] interface. *)
Definition Conn_SetReadDeadline (c : ConnId) (t : Z) : M unit :=
  log (EvSetReadDeadline c t).
Definition Conn_SetWriteDeadline (c : ConnId) (t : Z) : M unit :=
  log (EvSetWriteDeadline c t).
Definition Conn_ReadPacket (c : ConnId) : M (Packet + error) :=
  r ← call (inr io_EOF) onReadPacket rest_ReadPacket c;
  log (EvReadPacket c r);; mret r.
Definition Conn_WritePacket (c : ConnId) (p : Packet) : M (option error) :=
  r ← call None onWritePacket rest_WritePacket c;
  log (EvWritePacket c p r);; mret r.
Definition Conn_Pause (c : ConnId) : M (option error) :=
  r ← call None onPause rest_Pause c;
  log (EvPause c r);; mret r.
Definition Conn_Resume (c : ConnId) : M (option error) :=
  r ← call None onResume rest_Resume c;
  log (EvResume c r);; mret r.
Definition Conn_Close (c : ConnId) : M (option error) :=
  r ← call None onClose rest_Close c;
  log (EvConnClose c r);; mret r.

(** Reads and writes of the fields of the receiver. *)
Definition load {A} (f : Socket → A) : M A := λ st, (f (sock st), st).
Definition store_Conn (c : ConnId) : M unit :=
  λ st, let s := sock st in
        (tt, with_trace (trace st ++ [EvStoreConn c])
               (with_sock (mkSocket c (readTimeout s) (writeTimeout s)
                                    (transport s) (once s)) st)).
Definition store_transport (t : string) : M unit :=
  λ st, let s := sock st in
        (tt, with_trace (trace st ++ [EvStoreTransport t])
               (with_sock (mkSocket (Conn s) (readTimeout s) (writeTimeout s)
                                    t (once s)) st)).
Definition store_once : M unit :=
  λ st, let s := sock st in
        (tt, with_sock (mkSocket (Conn s) (readTimeout s) (writeTimeout s)
                                 (transport s) true) st).

(** [eventHandlers.fire], [emitter.close], [emitter.submit]. *)
Definition fire (e : event) (mt : MessageType) (d : bytes) : M unit :=
  log (EvFire e mt d).
Definition emitter_close : M unit := log EvEmitterClose.
Definition emitter_submit (p : Packet) : M (option error) :=
  λ st, let r := hd None (onSubmit st) in
        (r, with_trace (trace st ++ [EvEmitterSubmit p r])
              (with_onSubmit (tl (onSubmit st)) st)).

(** *** [func (s *Socket) upgrade(transport string, newConn Conn)] *)

Definition with_pktType (t : PacketType) (p : Packet) : Packet :=
  mkPacket (msgType p) t (data p).

Definition upgrade (transport : string) (newConn : ConnId) : M unit :=
  rt ← load readTimeout;
  now ← time_Now;
  Conn_SetReadDeadline newConn (now + rt);;
  r ← Conn_ReadPacket newConn;
  match r with
  | inr _ => Conn_Close newConn;; mret tt
  | inl p =>
    if negb (bool_decide (pktType p = PacketTypePing)) then
      Conn_Close newConn;; mret tt
    else
      let p := with_pktType PacketTypePong p in
      wt ← load writeTimeout;
      now ← time_Now;
      Conn_SetWriteDeadline newConn (now + wt);;
      err ← Conn_WritePacket newConn p;
      match err with
      | Some _ => Conn_Close newConn;; mret tt
      | None =>
        log EvRLock;;
        conn ← load Conn;
        log EvRUnlock;;
        err ← Conn_Pause conn;
        match err with
        | Some _ => Conn_Close newConn;; mret tt
        | None =>
          rt ← load readTimeout;
          now ← time_Now;
          Conn_SetReadDeadline newConn (now + rt);;
          r ← Conn_ReadPacket newConn;
          match r with
          | inr _ => Conn_Close newConn;; Conn_Resume conn;; mret tt
          | inl p =>
            if negb (bool_decide (pktType p = PacketTypeUpgrade)) then
              Conn_Close newConn;; Conn_Resume conn;; mret tt
            else
              log EvLock;;
              store_Conn newConn;;
              store_transport transport;;
              log EvUnlock;;
              fire EventUpgrade (msgType p) (data p)
          end
        end
      end
  end.

(** *** [func (s *Socket) Close() (err error)]

    [s.once.Do(f)] runs [f] when the [Once] has not fired yet and marks it
    fired when [f] returns; otherwise it does nothing and the named result
    [err] keeps its zero value. *)
Definition Close : M (option error) :=
  fired ← load once;
  if (fired : bool) then mret None
  else
    emitter_close;;
    c ← load Conn;
    err ← Conn_Close c;
    store_once;;
    mret err.

(** *** [func (s *Socket) emit(event event, msgType MessageType, args interface{})]

    [args] is an [interface{}]: the type switch of [emit] tells a [[]byte]
    and a [string] from every other value, which goes to [json.Marshal].
    The sentinel [ErrInvalidEvent] is declared outside the files embedded
    here and [json.Marshal] is the standard library's: both are taken from
    the environment, as is the type [other] of the values that are neither
    bytes nor strings. *)

Inductive iface (other : Type) :=
| IBytes (d : bytes)
| IString (s : string)
| IOther (v : other).
Arguments IBytes {other} d.
Arguments IString {other} s.
Arguments IOther {other} v.

Class EmitEnv := {
  ErrInvalidEvent : error;
  other : Type;
  json_Marshal : other → bytes + error
}.

Section emit.
Context {env : EmitEnv}.

Definition emit (ev : event) (msgType : MessageType) (args : iface other)
      : M (option error) :=
    match
      match ev with
      | EventOpen => Some PacketTypeOpen
      | EventMessage => Some PacketTypeMessage
      | EventClose => Some PacketTypeClose
      | EventPing => Some PacketTypePing
      | EventPong => Some PacketTypePong
      | _ => None
      end
    with
    | None => mret (Some ErrInvalidEvent)
    | Some pktType =>
      match
        match args with
        | IBytes d => inl d
        | IString s => inl (bytes_of_string s)
        | IOther v => json_Marshal v
        end
      with
      | inr err => mret (Some err)
      | inl data => emitter_submit (mkPacket msgType pktType data)
      end
    end.

Definition Emit (ev : event) (args : iface other) : M (option error) :=
    emit ev MessageTypeString args.

Definition Send (args : iface other) : M (option error) :=
    Emit EventMessage args.
End emit.

(** The packet type of an event, as the specification lists it: Open,
    Message, Close, Ping and Pong have one, no other event does. *)
Definition event_packetType (ev : event) : option PacketType :=
  if decide (ev = EventOpen) then Some PacketTypeOpen
  else if decide (ev = EventMessage) then Some PacketTypeMessage
  else if decide (ev = EventClose) then Some PacketTypeClose
  else if decide (ev = EventPing) then Some PacketTypePing
  else if decide (ev = EventPong) then Some PacketTypePong
  else None.

(** [n] calls of [Close] in a row, with what each returned. *)
Fixpoint Close_times (n : nat) : M (list (option error)) :=
  match n with
  | O => mret []
  | S n => err ← Close; errs ← Close_times n; mret (err :: errs)
  end.

(** *** What the environment holds in store for a call of [upgrade]

    The results the next calls will get, read off the scripts of the
    store. *)
Definition next_read (st : State) (c : ConnId) : Packet + error :=
  hd (inr io_EOF) (onReadPacket (conns st !!! c)).
Definition second_read (st : State) (c : ConnId) : Packet + error :=
  hd (inr io_EOF) (tl (onReadPacket (conns st !!! c))).
Definition next_write (st : State) (c : ConnId) : option error :=
  hd None (onWritePacket (conns st !!! c)).
Definition next_pause (st : State) (c : ConnId) : option error :=
  hd None (onPause (conns st !!! c)).

(** The handshake of [upgrade] on [newConn] fails, at one of its steps:
    the first packet read errors or is not a Ping, writing the Pong
    fails, Pause of the current conn fails, the second packet read errors
    or is not an Upgrade. *)
Inductive handshake_fails (st : State) (newConn : ConnId) : Prop :=
| first_read_errors err :
    next_read st newConn = inr err →
    handshake_fails st newConn
| first_packet_not_ping p :
    next_read st newConn = inl p →
    pktType p ≠ PacketTypePing →
    handshake_fails st newConn
| pong_write_fails p err :
    next_read st newConn = inl p →
    pktType p = PacketTypePing →
    next_write st newConn = Some err →
    handshake_fails st newConn
| pause_fails p err :
    next_read st newConn = inl p →
    pktType p = PacketTypePing →
    next_write st newConn = None →
    next_pause st (Conn (sock st)) = Some err →
    handshake_fails st newConn
| second_read_errors p err :
    next_read st newConn = inl p →
    pktType p = PacketTypePing →
    next_write st newConn = None →
    next_pause st (Conn (sock st)) = None →
    second_read st newConn = inr err →
    handshake_fails st newConn
| second_packet_not_upgrade p p2 :
    next_read st newConn = inl p →
    pktType p = PacketTypePing →
    next_write st newConn = None →
    next_pause st (Conn (sock st)) = None →
    second_read st newConn = inl p2 →
    pktType p2 ≠ PacketTypeUpgrade →
    handshake_fails st newConn.

(** Events by kind, for counting. *)
Definition is_ConnClose (e : Event) : bool :=
  match e with EvConnClose _ _ => true | _ => false end.
Definition is_EmitterClose (e : Event) : bool :=
  match e with EvEmitterClose => true | _ => false end.
Definition is_EmitterSubmit (e : Event) : bool :=
  match e with EvEmitterSubmit _ _ => true | _ => false end.
Definition is_store (e : Event) : bool :=
  match e with EvStoreConn _ | EvStoreTransport _ => true | _ => false end.
Definition is_Fire (e : Event) : bool :=
  match e with EvFire _ _ _ => true | _ => false end.

(** *** The runs of [upgrade]

    The calls a run of [upgrade] makes, from first to last, and the
    socket it leaves: one shape for each place the function returns. *)
Inductive upgrade_run (s : Socket) (t : string) (newConn : ConnId)
    : list Event → Socket → Prop :=
| run_first_read_error d1 err r :
    upgrade_run s t newConn
      [EvSetReadDeadline newConn d1; EvReadPacket newConn (inr err);
       EvConnClose newConn r] s
| run_not_ping d1 p r :
    pktType p ≠ PacketTypePing →
    upgrade_run s t newConn
      [EvSetReadDeadline newConn d1; EvReadPacket newConn (inl p);
       EvConnClose newConn r] s
| run_pong_not_written d1 d2 p err r :
    pktType p = PacketTypePing →
    upgrade_run s t newConn
      [EvSetReadDeadline newConn d1; EvReadPacket newConn (inl p);
       EvSetWriteDeadline newConn d2;
       EvWritePacket newConn (with_pktType PacketTypePong p) (Some err);
       EvConnClose newConn r] s
| run_not_paused d1 d2 p err r :
    pktType p = PacketTypePing →
    upgrade_run s t newConn
      [EvSetReadDeadline newConn d1; EvReadPacket newConn (inl p);
       EvSetWriteDeadline newConn d2;
       EvWritePacket newConn (with_pktType PacketTypePong p) None;
       EvRLock; EvRUnlock; EvPause (Conn s) (Some err);
       EvConnClose newConn r] s
| run_second_read_error d1 d2 d3 p err r r' :
    pktType p = PacketTypePing →
    upgrade_run s t newConn
      [EvSetReadDeadline newConn d1; EvReadPacket newConn (inl p);
       EvSetWriteDeadline newConn d2;
       EvWritePacket newConn (with_pktType PacketTypePong p) None;
       EvRLock; EvRUnlock; EvPause (Conn s) None;
       EvSetReadDeadline newConn d3; EvReadPacket newConn (inr err);
       EvConnClose newConn r; EvResume (Conn s) r'] s
| run_not_upgrade d1 d2 d3 p p2 r r' :
    pktType p = PacketTypePing →
    pktType p2 ≠ PacketTypeUpgrade →
    upgrade_run s t newConn
      [EvSetReadDeadline newConn d1; EvReadPacket newConn (inl p);
       EvSetWriteDeadline newConn d2;
       EvWritePacket newConn (with_pktType PacketTypePong p) None;
       EvRLock; EvRUnlock; EvPause (Conn s) None;
       EvSetReadDeadline newConn d3; EvReadPacket newConn (inl p2);
       EvConnClose newConn r; EvResume (Conn s) r'] s
| run_swapped d1 d2 d3 p p2 :
    pktType p = PacketTypePing →
    pktType p2 = PacketTypeUpgrade →
    upgrade_run s t newConn
      [EvSetReadDeadline newConn d1; EvReadPacket newConn (inl p);
       EvSetWriteDeadline newConn d2;
       EvWritePacket newConn (with_pktType PacketTypePong p) None;
       EvRLock; EvRUnlock; EvPause (Conn s) None;
       EvSetReadDeadline newConn d3; EvReadPacket newConn (inl p2);
       EvLock; EvStoreConn newConn; EvStoreTransport t; EvUnlock;
       EvFire EventUpgrade (msgType p2) (data p2)]
      (mkSocket newConn (readTimeout s) (writeTimeout s) t (once s)).

(** The operations on the mutex of the socket, among the events. *)
Definition is_mutex (e : Event) : bool :=
  match e with
  | EvRLock | EvRUnlock | EvLock | EvUnlock => true
  | _ => false
  end.
Definition is_WritePacket (e : Event) : bool :=
  match e with EvWritePacket _ _ _ => true | _ => false end.
Definition is_emitter (e : Event) : bool :=
  match e with EvEmitterClose | EvEmitterSubmit _ _ => true | _ => false end.
Definition closes (c : ConnId) (e : Event) : bool :=
  match e with EvConnClose c' _ => bool_decide (c' = c) | _ => false end.
Definition resumes (c : ConnId) (e : Event) : bool :=
  match e with EvResume c' _ => bool_decide (c' = c) | _ => false end.

(** [upgrade] and then [Close]. *)
Definition upgrade_then_Close (t : string) (newConn : ConnId)
    : M (option error) :=
  upgrade t newConn;; Close.

(** [upgrade] and then [n] calls of [Close]. *)
Definition upgrade_then_Close_times (t : string) (newConn : ConnId) (n : nat)
    : M (list (option error)) :=
  upgrade t newConn;; Close_times n.

(* ===================================================================== *)
(** ** engine: the polling connection behind fasthttp                    *)
(* ===================================================================== *)

(** *** The part of fasthttp the handler uses

    A response keeps the status code it was given, 0 when none was set;
    [StatusCode()] reads 0 as 200.  [ctx.Error] resets the response and
    sets code, content type and body; [ctx.Write] appends to the body and
    does not fail. *)

Definition StatusOK : Z := 200.
Definition StatusBadRequest : Z := 400.
Definition StatusNotFound : Z := 404.
Definition StatusMethodNotAllowed : Z := 405.
Definition StatusInternalServerError : Z := 500.

(** The request as the handler reads it: [Method] is what [ctx.Method()]
    returns, [RequestURI] what [ctx.RequestURI()] returns, [Body] what
    [ctx.Request.Body()] returns. *)
Record Request := mkRequest {
  Method : string;
  RequestURI : string;
  reqHeader : gmap string string;
  Body : bytes
}.

Record Response := mkResponse {
  statusCode : Z;
  respHeader : gmap string string;
  respBody : bytes
}.

Record RequestCtx := mkCtx {
  ctxRequest : Request;
  ctxResponse : Response
}.

Definition Header_Peek (h : gmap string string) (k : string) : string :=
  default "" (h !! k).

Definition StatusCode (r : Response) : Z :=
  if decide (statusCode r = 0) then StatusOK else statusCode r.

Definition with_Response (r : Response) (ctx : RequestCtx) : RequestCtx :=
  mkCtx (ctxRequest ctx) r.

Definition ctx_SetStatusCode (code : Z) (ctx : RequestCtx) : RequestCtx :=
  let r := ctxResponse ctx in
  with_Response (mkResponse code (respHeader r) (respBody r)) ctx.

Definition ctx_Header_Set (k v : string) (ctx : RequestCtx) : RequestCtx :=
  let r := ctxResponse ctx in
  with_Response (mkResponse (statusCode r) (<[k := v]> (respHeader r))
                            (respBody r)) ctx.

Definition ctx_Write (b : bytes) (ctx : RequestCtx) : RequestCtx :=
  let r := ctxResponse ctx in
  with_Response (mkResponse (statusCode r) (respHeader r) (respBody r ++ b))
                ctx.

Definition defaultContentType : string := "text/plain; charset=utf-8".

Definition ctx_Error (msg : string) (code : Z) (ctx : RequestCtx)
    : RequestCtx :=
  with_Response
    (mkResponse code {[ "Content-Type" := defaultContentType ]}
                (bytes_of_string msg)) ctx.

(** *** [strings.ToLower], on the ASCII letters

    Go lowers every Unicode letter.  The bytes of the other runes are
    left as they are here: no rune outside ASCII is lowered to one of the
    five letters of ["utf-8"], so the comparison [HandleFastHTTP] makes
    gives the same answer. *)
Definition lower_ascii (c : Ascii.ascii) : Ascii.ascii :=
  let n := Ascii.N_of_ascii c in
  if ((65 <=? n) && (n <=? 90))%N then Ascii.ascii_of_N (n + 32) else c.

Fixpoint strings_ToLower (s : string) : string :=
  match s with
  | EmptyString => EmptyString
  | String c s' => String (lower_ascii c) (strings_ToLower s')
  end.

(** *** The polling connection

    [closed] is the one-shot signal: [true] once the channel [p.closed]
    has been closed.  [in_] is what has been sent on the channel [p.in],
    oldest first. *)
Record pollingConn := mkPolling {
  closed : bool;
  in_ : list Packet
}.

Definition isClosed (p : pollingConn) : bool := closed p.

(** [type Payload struct]. *)
Record Payload := mkPayload {
  packets : list Packet;
  xhr2 : bool
}.

(** [url.Values] and its [Get]: the first value of the key, or [""]. *)
Definition Values_Get (q : gmap string (list string)) (k : string) : string :=
  match q !! k with
  | Some (v :: _) => v
  | _ => ""
  end.

(** Modelled from the spec: the names of the query parameters, declared
    outside the files embedded here
    ([GET /engine.io/?EIO=<ver>&transport=..&sid=<opt>&b64=<0|1>&j=<jsonp-index>]). *)
Definition queryBase64 : string := "b64".
Definition queryJSONP : string := "j".

(** [io.WriterTo]: what [WriteTo(w)] writes to [w] and the error it
    returns.  The writers of this file (a [bytes.Buffer], the request
    context) accept every write. *)
Class WriterTo (A : Type) := WriteTo : A → bytes * option error.

(** What the handler calls outside this file: the rest of the polling
    connection, the packet codec, and the standard library. *)
Class PollingEnv := {
  ErrPollingConnClosed : error;
  ReadPacketOut : pollingConn → (Packet + error) * pollingConn;
  packet2 : Type;
  Packet_packet2 : Packet → packet2;
  Packet_WriterTo :: WriterTo Packet;
  packet2_WriterTo :: WriterTo packet2;
  Payload_ReadFrom : Payload → bytes → Payload * option error;
  URL : Type;
  url_ParseRequestURI : string → URL + error;
  URL_Query : URL → gmap string (list string);
  mime_ParseMediaType : string → (string * gmap string string) + error;
  json_Encode : string → bytes + error
}.

(** The case a [select] over [<-p.closed] and [p.in <- pkt] takes.  Which
    one is ready, and which one runs when both are, is up to the other
    goroutines and the scheduler. *)
Inductive selectCase := RecvClosed | SendIn.

(** What a call of the handler leaves behind. *)
Record Result := mkResult {
  conn_after : pollingConn;
  ctx_after : RequestCtx;
  logged : list string          (* messages given to log.Println *)
}.

Section polling.
Context {env : PollingEnv}.

Definition fastWriteJSONP {A} `{WriterTo A} (ctx : RequestCtx)
      (jsonp : string) (wt : A) : RequestCtx * option error :=
    let ctx := ctx_Header_Set "Content-Type" "text/javascript; charset=UTF-8"
                              ctx in
    match WriteTo wt with
    | (_, Some err) => (ctx, Some err)
    | (buf, None) =>
      let s := String.string_of_list_byte buf in
      match json_Encode s with
      | inr err => (ctx, Some err)
      | inl buf =>
        let ctx :=
          ctx_Write (bytes_of_string
                       ("___eio[" +:+ jsonp +:+ "](" +:+ dquote
                        +:+ String.string_of_list_byte buf
                        +:+ dquote +:+ ");")) ctx in
        (ctx_SetStatusCode StatusOK ctx, None)
      end
    end.

Definition fastWriteXHR {A} `{WriterTo A} (ctx : RequestCtx) (wt : A)
      : RequestCtx * option error :=
    let ctx := ctx_Header_Set "Content-Type" "text/plain; charset=UTF-8" ctx in
    let '(written, err) := WriteTo wt in
    let ctx := ctx_Write written ctx in
    match err with
    | Some err => (ctx, Some err)
    | None => (ctx_SetStatusCode StatusOK ctx, None)
    end.

Definition fastWriteXHR2 {A} `{WriterTo A} (ctx : RequestCtx) (wt : A)
      : RequestCtx * option error :=
    let ctx := ctx_Header_Set "Content-Type" "application/octet-stream" ctx in
    let '(written, err) := WriteTo wt in
    let ctx := ctx_Write written ctx in
    match err with
    | Some err => (ctx, Some err)
    | None => (ctx_SetStatusCode StatusOK ctx, None)
    end.

  (** The loop [for i := range payload.packets { select {..} }], from
      iteration [i] on: [true] when it left through [<-p.closed]. *)
Fixpoint push_in (sched : nat → selectCase) (i : nat) (pkts : list Packet)
      (p : pollingConn) : bool * pollingConn :=
    match pkts with
    | [] => (false, p)
    | pkt :: pkts =>
      match sched i with
      | RecvClosed => (true, mkPolling true (in_ p))
      | SendIn => push_in sched (S i) pkts (mkPolling (closed p) (in_ p ++ [pkt]))
      end
    end.

  (** [func (p *pollingConn) HandleFastHTTP(ctx *fasthttp.RequestCtx)] *)
Definition HandleFastHTTP (sched : nat → selectCase) (p : pollingConn)
      (ctx : RequestCtx) : Result :=
    if isClosed p then
      mkResult p (ctx_Error ErrPollingConnClosed StatusBadRequest ctx) []
    else if String.eqb (Method (ctxRequest ctx)) "GET" then
      let '(r, p) := ReadPacketOut p in
      match r with
      | inr err => mkResult p (ctx_Error err StatusNotFound ctx) []
      | inl pkt =>
        match url_ParseRequestURI (RequestURI (ctxRequest ctx)) with
        | inr err => mkResult p (ctx_Error err StatusBadRequest ctx) []
        | inl rURL =>
          let q := URL_Query rURL in
          let b64 := Values_Get q queryBase64 in
          let jsonp := Values_Get q queryJSONP in
          let '(ctx, err) :=
            if negb (String.eqb jsonp "") then fastWriteJSONP ctx jsonp pkt
            else if String.eqb b64 "1" then fastWriteXHR ctx pkt
            else fastWriteXHR2 ctx (Packet_packet2 pkt) in
          match err with
          | Some err => mkResult p ctx ["polling: " +:+ err]
          | None => mkResult p ctx []
          end
        end
      end
    else if String.eqb (Method (ctxRequest ctx)) "POST" then
      match mime_ParseMediaType
              (Header_Peek (reqHeader (ctxRequest ctx)) "Content-Type") with
      | inr err => mkResult p (ctx_Error err StatusBadRequest ctx) []
      | inl (mediatype, params) =>
        let decode (payload : Payload) :=
          match Payload_ReadFrom payload (Body (ctxRequest ctx)) with
          | (_, Some err) =>
            mkResult p (ctx_Error err StatusInternalServerError ctx) []
          | (payload, None) =>
            match push_in sched 0 (packets payload) p with
            | (true, p) => mkResult p (ctx_Error "closed" StatusNotFound ctx) []
            | (false, p) => mkResult p (ctx_Error "OK" StatusOK ctx) []
            end
          end in
        if String.eqb mediatype "application/octet-stream" then
          decode (mkPayload [] true)
        else if String.eqb mediatype "text/plain" then
          if negb (String.eqb (strings_ToLower (default "" (params !! "charset")))
                              "utf-8")
          then mkResult p (ctx_Error "invalid charset" StatusBadRequest ctx) []
          else decode (mkPayload [] false)
        else mkResult p (ctx_Error "invalid media type" StatusBadRequest ctx) []
      end
    else mkResult p (ctx_Error "error" StatusMethodNotAllowed ctx) [].
(** The content types the POST branch turns down: a header that does not
    parse, [text/plain] with a charset that is not utf-8 in any case of
    letters, a media type that is neither of the two accepted ones. *)
Inductive rejected_content_type (h : string) : Prop :=
| unparseable err :
    mime_ParseMediaType h = inr err →
    rejected_content_type h
| wrong_charset params :
    mime_ParseMediaType h = inl ("text/plain", params) →
    strings_ToLower (default "" (params !! "charset")) ≠ "utf-8" →
    rejected_content_type h
| wrong_media_type mediatype params :
    mime_ParseMediaType h = inl (mediatype, params) →
    mediatype ≠ "application/octet-stream" →
    mediatype ≠ "text/plain" →
    rejected_content_type h.

(** The content types it accepts, with the form of payload each asks
    for: [true] for xhr2. *)
Inductive accepted_content_type (h : string) : bool → Prop :=
| octet_stream params :
    mime_ParseMediaType h = inl ("application/octet-stream", params) →
    accepted_content_type h true
| text_plain_utf8 params :
    mime_ParseMediaType h = inl ("text/plain", params) →
    strings_ToLower (default "" (params !! "charset")) = "utf-8" →
    accepted_content_type h false.
End polling.

(* ===================================================================== *)
(** ** engine: the server behind fasthttp                                *)
(* ===================================================================== *)

(** Modelled from the spec: the names of the transports and of the
    remaining query parameters, declared outside the files embedded here
    ([GET /engine.io/?EIO=<ver>&transport=<polling|websocket>&sid=<opt>]). *)
Definition transportWebsocket : string := "websocket".
Definition transportPolling : string := "polling".
Definition queryEIO : string := "EIO".
Definition queryTransport : string := "transport".
Definition querySession : string := "sid".

(** A [*Session]: a reference into the heap of sessions.  A session
    embeds a [*Socket] and carries the name of its transport. *)
Definition SessRef := nat.

Record Session := mkSession {
  sessSocket : Socket;
  transportName : string
}.

(** What the server calls outside this file, in the order of the calls;
    [SrvLog] is a message the polling handler gave to [log.Println]. *)
Inductive ServerCall :=
| SrvNewSession (conn : ConnId) (readTimeout writeTimeout : Z)
| SrvPublish (ß : SessRef)
| SrvUpgrade (ß : SessRef) (name : string) (conn : ConnId)
| SrvLog (msg : string).

(** The server and the memory it works in.  [sessionManager] maps a
    session id to its session (modelled from the spec: [mapping sid →
    *Session], [Get(sid) → (session, ok)]); [pollingHeap] holds the conns
    that are polling conns, which are the ones that handle fasthttp
    requests; [nextConn] is the address the next conn is allocated at. *)
Record Server := mkServer {
  pingInterval : Z;
  pingTimeout : Z;
  sessionManager : gmap string SessRef;
  sessionHeap : gmap SessRef Session;
  pollingHeap : gmap ConnId pollingConn;
  nextConn : ConnId;
  srvCalls : list ServerCall
}.

Definition with_sessionHeap (h : gmap SessRef Session) (s : Server) : Server :=
  mkServer (pingInterval s) (pingTimeout s) (sessionManager s) h
           (pollingHeap s) (nextConn s) (srvCalls s).
Definition with_pollingHeap (h : gmap ConnId pollingConn) (s : Server)
    : Server :=
  mkServer (pingInterval s) (pingTimeout s) (sessionManager s)
           (sessionHeap s) h (nextConn s) (srvCalls s).
Definition with_srvCalls (l : list ServerCall) (s : Server) : Server :=
  mkServer (pingInterval s) (pingTimeout s) (sessionManager s)
           (sessionHeap s) (pollingHeap s) (nextConn s) l.

(** [type FastTransport interface]: the methods of an implementation. *)
Record FastTransport := mkTransport {
  Name : string;
  Dial : string → ConnId + error;
  Accept : RequestCtx → Server → (ConnId + error) * Server
}.

(** The case the [select] over [<-s.done] and [s.ßchan <- ß] takes. *)
Inductive serverSelect := RecvDone | SendSession.

(** What the server reaches outside this file, besides what the polling
    handler does: the protocol version, the constructor of polling conns
    with the host and the remote address of the request, [NewSession]
    and the [upgrade] method of the server. *)
Class ServerEnv := {
  server_PollingEnv :: PollingEnv;
  Version : string;
  ctx_Host : RequestCtx → string;
  ctx_RemoteAddr : RequestCtx → string;
  newPollingConn : nat → string → string → pollingConn;
  NewSession : Server → ConnId → Z → Z → SessRef * Server;
  Server_upgrade : Server → SessRef → string → ConnId → Server
}.

Section server.
Context {env : ServerEnv}.

(** [fastPollingAcceptor.Accept]: a new polling conn, of capacity 8, at a
    fresh address; it does not fail. *)
Definition fastPollingAcceptor_Accept (ctx : RequestCtx) (s : Server)
    : (ConnId + error) * Server :=
  let conn := nextConn s in
  (inl conn,
   mkServer (pingInterval s) (pingTimeout s) (sessionManager s)
            (sessionHeap s)
            (<[conn := newPollingConn 8 (ctx_Host ctx) (ctx_RemoteAddr ctx)]>
               (pollingHeap s))
            (S conn) (srvCalls s)).

(** [var FastPollingTransport FastTransport = &fastPollingTransport{}] *)
Definition FastPollingTransport : FastTransport := {|
  Name := transportPolling;
  Dial _ := inr "not implemented";
  Accept := fastPollingAcceptor_Accept
|}.

(** [func getFastTransport(name string) FastTransport], nil as [None]. *)
Definition getFastTransport (name : string) : option FastTransport :=
  if String.eqb name transportWebsocket then None
  else if String.eqb name transportPolling then Some FastPollingTransport
  else None.

(** [func (s *Socket) HandleFastHTTP(ctx *fasthttp.RequestCtx)]: the conn
    of the socket handles the request if it is a
    [fasthttpRequestHandler], which the polling conns are. *)
Definition Socket_HandleFastHTTP (sched : nat → selectCase) (sock : Socket)
    (ctx : RequestCtx) (s : Server) : RequestCtx * Server :=
  match pollingHeap s !! Conn sock with
  | Some p =>
    let r := HandleFastHTTP sched p ctx in
    (ctx_after r,
     with_srvCalls (srvCalls s ++ map SrvLog (logged r))
       (with_pollingHeap (<[Conn sock := conn_after r]> (pollingHeap s)) s))
  | None => (ctx, s)
  end.

(** [ß.HandleFastHTTP(ctx)], through the socket the session embeds;
    [None] when [ß] refers to no session. *)
Definition Session_HandleFastHTTP (sched : nat → selectCase) (ß : SessRef)
    (ctx : RequestCtx) (s : Server) : option (RequestCtx * Server) :=
  sess ← sessionHeap s !! ß;
  Some (Socket_HandleFastHTTP sched (sessSocket sess) ctx s).

(** [func (s *Server) HandleFastHTTP(ctx *fasthttp.RequestCtx)] *)
Definition Server_HandleFastHTTP (sched : nat → selectCase)
    (choice : serverSelect) (ctx : RequestCtx) (s : Server)
    : option (RequestCtx * Server) :=
  match url_ParseRequestURI (RequestURI (ctxRequest ctx)) with
  | inr err => Some (ctx_Error err StatusBadRequest ctx, s)
  | inl rURL =>
    let q := URL_Query rURL in
    if negb (String.eqb (Values_Get q queryEIO) Version) then
      Some (ctx_Error "protocol version incompatible" StatusBadRequest ctx, s)
    else
      match getFastTransport (Values_Get q queryTransport) with
      | None => Some (ctx_Error "invalid transport" StatusBadRequest ctx, s)
      | Some transport =>
        let sid := Values_Get q querySession in
        if String.eqb sid "" then
          match Accept transport ctx s with
          | (inr err, s) =>
            Some (ctx_Error err StatusInternalServerError ctx, s)
          | (inl conn, s) =>
            let readTimeout := pingTimeout s + pingInterval s in
            let writeTimeout := pingTimeout s in
            let s := with_srvCalls
                       (srvCalls s
                        ++ [SrvNewSession conn readTimeout writeTimeout]) s in
            let '(ß, s) := NewSession s conn readTimeout writeTimeout in
            sess ← sessionHeap s !! ß;
            let s := with_sessionHeap
                       (<[ß := mkSession (sessSocket sess) (Name transport)]>
                          (sessionHeap s)) s in
            match choice with
            | RecvDone => Some (ctx, s)
            | SendSession =>
              let s := with_srvCalls (srvCalls s ++ [SrvPublish ß]) s in
              Session_HandleFastHTTP sched ß ctx s
            end
          end
        else
          match sessionManager s !! sid with
          | None => Some (ctx_Error "invalid session" StatusBadRequest ctx, s)
          | Some ß =>
            sess ← sessionHeap s !! ß;
            let transportName' := Name transport in
            if negb (String.eqb (transportName sess) transportName') then
              match Accept transport ctx s with
              | (inr err, s) =>
                Some (ctx_Error err StatusInternalServerError ctx, s)
              | (inl conn, s) =>
                let s := with_srvCalls
                           (srvCalls s ++ [SrvUpgrade ß transportName' conn])
                           s in
                let s := Server_upgrade s ß transportName' conn in
                Session_HandleFastHTTP sched ß ctx s
              end
            else Session_HandleFastHTTP sched ß ctx s
          end
      end
  end.

(** The requests the server turns down before it looks at a session: a
    request URI that does not parse, another protocol version, a
    transport that is not served, a session id the manager does not
    know. *)
Inductive refused (s : Server) (ctx : RequestCtx) : Prop :=
| refused_uri err :
    url_ParseRequestURI (RequestURI (ctxRequest ctx)) = inr err →
    refused s ctx
| refused_version rURL :
    url_ParseRequestURI (RequestURI (ctxRequest ctx)) = inl rURL →
    Values_Get (URL_Query rURL) queryEIO ≠ Version →
    refused s ctx
| refused_transport rURL :
    url_ParseRequestURI (RequestURI (ctxRequest ctx)) = inl rURL →
    Values_Get (URL_Query rURL) queryTransport ≠ "polling" →
    refused s ctx
| refused_session rURL :
    url_ParseRequestURI (RequestURI (ctxRequest ctx)) = inl rURL →
    Values_Get (URL_Query rURL) querySession ≠ "" →
    sessionManager s !! Values_Get (URL_Query rURL) querySession = None →
    refused s ctx.

(** A request the server takes up: it parses, has the version of the
    server and asks for the polling transport; [sid] is the session id
    it names, empty when it names none. *)
Definition well_formed (ctx : RequestCtx) (sid : string) : Prop :=
  ∃ rURL,
    url_ParseRequestURI (RequestURI (ctxRequest ctx)) = inl rURL
    ∧ Values_Get (URL_Query rURL) queryEIO = Version
    ∧ Values_Get (URL_Query rURL) queryTransport = "polling"
    ∧ Values_Get (URL_Query rURL) querySession = sid.
End server.

End engine.

(* ===================================================================== *)
(** ** socketio: the dispatcher of the server                            *)
(* ===================================================================== *)

Module socketio.

(** Modelled from the spec: the packet types, declared outside the files
    embedded here ([Socket.IO packet type digits: Connect=0, Disconnect=1,
    Event=2, Ack=3, Error=4, BinaryEvent=5, BinaryAck=6]).  A type is an
    unsigned number; [process] has a branch for the numbers that are none
    of the seven. *)
Definition PacketType := N.
Definition PacketTypeConnect : PacketType := 0%N.
Definition PacketTypeDisconnect : PacketType := 1%N.
Definition PacketTypeEvent : PacketType := 2%N.
Definition PacketTypeAck : PacketType := 3%N.
Definition PacketTypeError : PacketType := 4%N.
Definition PacketTypeBinaryEvent : PacketType := 5%N.
Definition PacketTypeBinaryAck : PacketType := 6%N.

(** A Go value held in an [interface{}]: nil, a [[]interface{}], or any
    other value, of which only the identity matters here. *)
#[warnings="-register-all"] Inductive any :=
| Nil
| Slice (l : list any)
| Opaque (n : nat).

(** [reflect.Value] with its [Interface()] method. *)
Record reflect_Value := mkValue { Interface : any }.

(** [type Packet struct]; [ID] is a pointer, nil when the packet asks for
    no acknowledgement. *)
Record Packet := mkPacket {
  Type_ : PacketType;
  Namespace : string;
  ID : option N;
  Data : any
}.

Definition with_Data (d : any) (p : Packet) : Packet :=
  mkPacket (Type_ p) (Namespace p) (ID p) d.

(** A [*namespace]. *)
Definition nspRef := nat.

(** The second argument of [onError]: an error or the data of a packet. *)
Inductive errArg :=
| OfError (e : error)
| OfData (d : any).

(** The calls [process] makes, in the order it makes them. *)
Inductive Call :=
| CallAttachnsp (ns : string)
| CallDetachnsp (ns : string)
| CallEmitError (ns : string) (msg : string)
| CallParseData (p : Packet)
| CallFireEvent (nsp : nspRef) (ev : string) (data : bytes) (bin : list bytes)
| CallFireAck (nsp : nspRef) (id : N) (data : bytes) (bin : list bytes)
| CallAck (p : Packet)
| CallOnError (ns : string) (arg : errArg).

(** What [process] reaches outside itself.  [onError] tells whether the
    callback field of the socket is set; the other fields give what the
    methods of the socket, of its decoder and of the namespace return. *)
Class SocketEnv := {
  ErrorNamespaceUnavaialble : error;
  ErrUnknownPacket : error;
  onError : bool;
  attachnsp : string → option nspRef;
  ParseData : Packet → (string * bytes * list bytes) + error;
  fireEvent : nspRef → string → bytes → list bytes
              → option (list reflect_Value) * option error;
  ack : Packet → option error
}.

Section process.
Context {env : SocketEnv}.

  (** [if sock.onError != nil { sock.onError(ns, arg) }] *)
Definition report (ns : string) (arg : errArg) : list Call :=
    if onError then [CallOnError ns arg] else [].

  (** [process(sock *socket, p *Packet)], a method of [*Server] *)
Definition process (p : Packet) : list Call :=
    CallAttachnsp (Namespace p) ::
    match attachnsp (Namespace p) with
    | None =>
      if (PacketTypeDisconnect <? Type_ p)%N then
        [CallEmitError (Namespace p) ErrorNamespaceUnavaialble]
      else []
    | Some nsp =>
      if (Type_ p =? PacketTypeConnect)%N then []
      else if (Type_ p =? PacketTypeDisconnect)%N then
        [CallDetachnsp (Namespace p)]
      else if ((Type_ p =? PacketTypeEvent)
               || (Type_ p =? PacketTypeBinaryEvent))%N then
        CallParseData p ::
        match ParseData p with
        | inr err => report (Namespace p) (OfError err)
        | inl (event, data, bin) =>
          if String.eqb event "" then []
          else
            CallFireEvent nsp event data bin ::
            match fireEvent nsp event data bin with
            | (_, Some err) => report (Namespace p) (OfError err)
            | (v, None) =>
              match ID p with
              | None => []
              | Some _ =>
                let p := with_Data Nil p in
                let p :=
                  match v with
                  | None => p
                  | Some v => with_Data (Slice (map Interface v)) p
                  end in
                CallAck p ::
                match ack p with
                | Some err => report (Namespace p) (OfError err)
                | None => []
                end
              end
            end
        end
      else if ((Type_ p =? PacketTypeAck)
               || (Type_ p =? PacketTypeBinaryAck))%N then
        match ID p with
        | None => []
        | Some id =>
          CallParseData p ::
          match ParseData p with
          | inr err => report (Namespace p) (OfError err)
          | inl (_, data, bin) => [CallFireAck nsp id data bin]
          end
        end
      else if (Type_ p =? PacketTypeError)%N then
        report (Namespace p) (OfData (Data p))
      else report (Namespace p) (OfError ErrUnknownPacket)
    end.
End process.

(** The calls that run a handler of the application. *)
Definition is_handler_call (c : Call) : bool :=
  match c with
  | CallFireEvent _ _ _ _ | CallFireAck _ _ _ _ => true
  | _ => false
  end.
Definition is_CallAck (c : Call) : bool :=
  match c with CallAck _ => true | _ => false end.
Definition is_CallOnError (c : Call) : bool :=
  match c with CallOnError _ _ => true | _ => false end.

(** The namespace a call names, if it names one. *)
Definition call_namespace (c : Call) : option string :=
  match c with
  | CallAttachnsp ns | CallDetachnsp ns | CallEmitError ns _
  | CallOnError ns _ => Some ns
  | CallParseData p | CallAck p => Some (Namespace p)
  | CallFireEvent _ _ _ _ | CallFireAck _ _ _ _ => None
  end.
Definition is_CallParseData (c : Call) : bool :=
  match c with CallParseData _ => true | _ => false end.
Definition is_reply (c : Call) : bool :=
  match c with CallAck _ | CallEmitError _ _ => true | _ => false end.

End socketio.

(* ===================================================================== *)
(** ** Sample environments and states                                    *)
(* ===================================================================== *)

(** Small concrete worlds, on which the definitions run: a polling
    session that a websocket connection tries to take over, the handler
    of a polling connection with a toy codec, and a socket.io socket with
    the namespace ["/"]. *)
Module Sample.
Import engine.

Definition ping : Packet :=
  mkPacket MessageTypeString PacketTypePing (bytes_of_string "probe").
Definition upgrade_packet : Packet :=
  mkPacket MessageTypeString PacketTypeUpgrade [].
Definition hello : Packet :=
  mkPacket MessageTypeString PacketTypeMessage (bytes_of_string "hello").
Definition world : Packet :=
  mkPacket MessageTypeString PacketTypeMessage (bytes_of_string "world").

(** Connection 0 is the polling conn of the session, connection 1 the
    websocket candidate. *)
Definition polling_conn : ConnObj := mkConn [] [] [] [] [].
Definition websocket_probing : ConnObj :=
  mkConn [inl ping; inl upgrade_packet] [] [] [] [].
Definition websocket_chatting : ConnObj :=
  mkConn [inl ping; inl hello] [] [] [] [].

Definition session : Socket := mkSocket 0%nat 25000 25000 "polling" false.

Definition state_with (candidate : ConnObj) : State :=
  mkState session {[ 0%nat := polling_conn; 1%nat := candidate ]} []
          (λ n, Z.of_nat n) [].

(** Values that are neither bytes nor strings: nil, a boolean, a channel.
    [json.Marshal] gives ["null"], ["true"] or ["false"], and refuses a
    channel with an [UnsupportedTypeError]. *)
Inductive govalue := GoNil | GoBool (b : bool) | GoChan.

#[export] Instance emit_env : EmitEnv := {|
  ErrInvalidEvent := "invalid event";
  other := govalue;
  json_Marshal v :=
    match v with
    | GoNil => inl (bytes_of_string "null")
    | GoBool true => inl (bytes_of_string "true")
    | GoBool false => inl (bytes_of_string "false")
    | GoChan => inr "json: unsupported type: chan int"
    end
|}.

(** A handler environment.  The codec knows the frames of the packets
    above; the URL parser knows two request URIs and rejects a path with
    a broken escape; the media type parser knows four headers. *)
Definition frame (p : Packet) : bytes :=
  if decide (p = hello) then bytes_of_string "6:4hello"
  else if decide (p = world) then bytes_of_string "6:4world"
  else [].

#[export] Instance polling_env : PollingEnv := {|
  ErrPollingConnClosed := "polling connection closed";
  ReadPacketOut p := (inl hello, p);
  packet2 := Packet;
  Packet_packet2 p := p;
  Packet_WriterTo p := (frame p, None);
  packet2_WriterTo p := (x00 :: x06 :: xff :: bytes_of_string "4hello", None);
  Payload_ReadFrom pl body :=
    if decide (body = bytes_of_string "6:4world6:4hello")
    then (mkPayload [world; hello] (xhr2 pl), None)
    else (pl, Some "invalid payload length");
  URL := gmap string (list string);
  url_ParseRequestURI uri :=
    if String.eqb uri "/engine.io/?j=0" then inl {[ "j" := ["0"] ]}
    else if String.eqb uri "/engine.io/?b64=1" then inl {[ "b64" := ["1"] ]}
    else if String.eqb uri "/engine.io/" then inl ∅
    else inr "invalid URL escape";
  URL_Query q := q;
  mime_ParseMediaType h :=
    if String.eqb h "text/plain; charset=UTF-8"
    then inl ("text/plain", {[ "charset" := "UTF-8" ]})
    else if String.eqb h "text/plain; charset=latin1"
    then inl ("text/plain", {[ "charset" := "latin1" ]})
    else if String.eqb h "application/octet-stream"
    then inl ("application/octet-stream", ∅)
    else if String.eqb h "application/json"
    then inl ("application/json", ∅)
    else inr "mime: no media type";
  json_Encode s := inl (bytes_of_string (dquote +:+ s +:+ dquote) ++ [x0a])
|}.

Definition request (method uri contentType : string) (body : bytes)
    : RequestCtx :=
  mkCtx (mkRequest method uri {[ "Content-Type" := contentType ]} body)
        (mkResponse 0 ∅ []).

Definition two_frames : bytes := bytes_of_string "6:4world6:4hello".
Definition post_latin1 : RequestCtx :=
  request "POST" "/engine.io/" "text/plain; charset=latin1" two_frames.
Definition post_utf8 : RequestCtx :=
  request "POST" "/engine.io/" "text/plain; charset=UTF-8" two_frames.
Definition get_xhr2 : RequestCtx := request "GET" "/engine.io/" "" [].
Definition get_jsonp : RequestCtx := request "GET" "/engine.io/?j=0" "" [].
Definition get_broken_escape : RequestCtx :=
  request "GET" "/engine.io/%zz" "" [].

Definition open_conn : pollingConn := mkPolling false [].
Definition closed_conn : pollingConn := mkPolling true [].

(** A scheduler under which every send on [p.in] goes through, and one
    under which the closed signal wins at the second packet. *)
Definition all_sent : nat → selectCase := λ _, SendIn.
Definition closed_at_1 : nat → selectCase :=
  λ i, if decide (i = 1%nat) then RecvClosed else SendIn.

(** A socket.io socket that has ["/"] attached and nothing else, whose
    decoder reads the data of a packet off its [Opaque] tag, and whose
    handler ["add"] returns one value while ["fail"] returns an error. *)
Definition socket_env (withOnError : bool) : socketio.SocketEnv := {|
  socketio.ErrorNamespaceUnavaialble := "namespace unavailable";
  socketio.ErrUnknownPacket := "unknown packet";
  socketio.onError := withOnError;
  socketio.attachnsp ns := if String.eqb ns "/" then Some 0%nat else None;
  socketio.ParseData p :=
    match socketio.Data p with
    | socketio.Opaque 0%nat => inl ("add", bytes_of_string "[1,2]", [])
    | socketio.Opaque 1%nat => inl ("fail", bytes_of_string "[]", [])
    | _ => inr "invalid data"
    end;
  socketio.fireEvent nsp ev data bin :=
    if String.eqb ev "add"
    then (Some [socketio.mkValue (socketio.Opaque 3%nat)], None)
    else if String.eqb ev "fail" then (None, Some "handler failed")
    else (None, None);
  socketio.ack p := None
|}.

Definition event_packet (ns : string) (id : option N) (tag : nat)
    : socketio.Packet :=
  socketio.mkPacket socketio.PacketTypeEvent ns id (socketio.Opaque tag).


(** A socket.io socket whose decoder finds no event name in the data. *)
Definition unnamed_env : socketio.SocketEnv := {|
  socketio.ErrorNamespaceUnavaialble := "namespace unavailable";
  socketio.ErrUnknownPacket := "unknown packet";
  socketio.onError := true;
  socketio.attachnsp ns := if String.eqb ns "/" then Some 0%nat else None;
  socketio.ParseData p := inl ("", [], []);
  socketio.fireEvent nsp ev data bin := (None, None);
  socketio.ack p := None
|}.

(** A handler environment in which things go wrong: the conn has been
    drained, and the encoders fail after a few bytes. *)
Definition failing_env : PollingEnv := {|
  ErrPollingConnClosed := "polling connection closed";
  ReadPacketOut p :=
    if decide (in_ p = []) then (inr "polling connection closed", p)
    else (inl hello, p);
  packet2 := Packet;
  Packet_packet2 p := p;
  Packet_WriterTo p := (bytes_of_string "6:4", Some "short write");
  packet2_WriterTo p := ([x00], Some "short write");
  Payload_ReadFrom pl body := (pl, Some "invalid payload length");
  URL := gmap string (list string);
  url_ParseRequestURI uri :=
    if String.eqb uri "/engine.io/?b64=1" then inl {[ "b64" := ["1"] ]}
    else inl ∅;
  URL_Query q := q;
  mime_ParseMediaType h := inr "mime: no media type";
  json_Encode s := inr "json: error"
|}.

Definition get_b64 : RequestCtx := request "GET" "/engine.io/?b64=1" "" [].
Definition put_request : RequestCtx := request "PUT" "/engine.io/" "" [].
Definition busy_conn : pollingConn := mkPolling false [world].

(** A server environment on top of the handler environment above.  The
    URL parser is that of [polling_env] extended with the request URIs of
    the server; [NewSession] puts the session at the next free reference
    and registers it under the id ["s1"]. *)
Definition server_polling_env : PollingEnv := {|
  ErrPollingConnClosed := "polling connection closed";
  ReadPacketOut p := (inl hello, p);
  packet2 := Packet;
  Packet_packet2 p := p;
  Packet_WriterTo p := (frame p, None);
  packet2_WriterTo p := (x00 :: x06 :: xff :: bytes_of_string "4hello", None);
  Payload_ReadFrom pl body := (mkPayload [world; hello] (xhr2 pl), None);
  URL := gmap string (list string);
  url_ParseRequestURI uri :=
    if String.eqb uri "/engine.io/?EIO=3&transport=polling"
    then inl {[ "EIO" := ["3"]; "transport" := ["polling"] ]}
    else if String.eqb uri "/engine.io/?EIO=3&transport=polling&sid=s0"
    then inl {[ "EIO" := ["3"]; "transport" := ["polling"];
                "sid" := ["s0"] ]}
    else if String.eqb uri "/engine.io/?EIO=3&transport=polling&sid=w0"
    then inl {[ "EIO" := ["3"]; "transport" := ["polling"];
                "sid" := ["w0"] ]}
    else if String.eqb uri "/engine.io/?EIO=3&transport=websocket&sid=s0"
    then inl {[ "EIO" := ["3"]; "transport" := ["websocket"];
                "sid" := ["s0"] ]}
    else inr "invalid URI for request";
  URL_Query q := q;
  mime_ParseMediaType h :=
    if String.eqb h "application/octet-stream"
    then inl ("application/octet-stream", ∅)
    else inr "mime: no media type";
  json_Encode s := inl (bytes_of_string (dquote +:+ s +:+ dquote) ++ [x0a])
|}.

#[export] Instance server_env : ServerEnv := {|
  server_PollingEnv := server_polling_env;
  Version := "3";
  ctx_Host ctx := "localhost";
  ctx_RemoteAddr ctx := "127.0.0.1:50000";
  newPollingConn capacity host remote := mkPolling false [];
  NewSession s conn readTimeout writeTimeout :=
    let ß := S (S (size (sessionHeap s))) in
    (ß,
     mkServer (pingInterval s) (pingTimeout s)
              (<["s1" := ß]> (sessionManager s))
              (<[ß := mkSession
                        (mkSocket conn readTimeout writeTimeout "" false) ""]>
                 (sessionHeap s))
              (pollingHeap s) (nextConn s) (srvCalls s));
  Server_upgrade s ß name conn := s
|}.

(** A server with a polling session ["s0"] on conn 0 and a session
    ["w0"] that has moved to a websocket, conn 1. *)
Definition server0 : Server :=
  mkServer 25000 60000
    {[ "s0" := 0%nat; "w0" := 1%nat ]}
    {[ 0%nat := mkSession (mkSocket 0%nat 85000 60000 "polling" false)
                          "polling";
       1%nat := mkSession (mkSocket 1%nat 85000 60000 "websocket" false)
                          "websocket" ]}
    {[ 0%nat := open_conn ]}
    2%nat [].

Definition server_request (uri : string) : RequestCtx :=
  request "GET" uri "" [].
End Sample.

(* ===================================================================== *)
(** * Properties of the engine socket                                    *)
(* ===================================================================== *)

Module EngineSpec.
Import engine.

Lemma run_bind {A B} (m : M A) (f : A → M B) st :
  (m ≫= f) st = f (m st).1 (m st).2.
Proof. reflexivity. Qed.

(** Scripts of a method are not touched by calls of the other methods,
    whatever connection they are made on. *)
Lemma lookup_rest_frame {B} (proj : ConnObj → B) (f : ConnObj → ConnObj)
    (m : gmap ConnId ConnObj) c c' :
  (∀ o, proj (f o) = proj o) →
  proj (<[c := f (m !!! c)]> m !!! c') = proj (m !!! c').
Proof.
  intros Hf. destruct (decide (c = c')) as [->|Hne].
  - by rewrite lookup_total_insert_eq.
  - by rewrite lookup_total_insert_ne.
Qed.

Lemma write_after_read (m : gmap ConnId ConnObj) c c' l :
  onWritePacket (<[c := rest_ReadPacket l (m !!! c)]> m !!! c')
  = onWritePacket (m !!! c').
Proof. by apply (lookup_rest_frame onWritePacket (rest_ReadPacket l)). Qed.

Lemma pause_after_read (m : gmap ConnId ConnObj) c c' l :
  onPause (<[c := rest_ReadPacket l (m !!! c)]> m !!! c')
  = onPause (m !!! c').
Proof. by apply (lookup_rest_frame onPause (rest_ReadPacket l)). Qed.

Lemma pause_after_write (m : gmap ConnId ConnObj) c c' l :
  onPause (<[c := rest_WritePacket l (m !!! c)]> m !!! c')
  = onPause (m !!! c').
Proof. by apply (lookup_rest_frame onPause (rest_WritePacket l)). Qed.

Lemma read_after_write (m : gmap ConnId ConnObj) c c' l :
  onReadPacket (<[c := rest_WritePacket l (m !!! c)]> m !!! c')
  = onReadPacket (m !!! c').
Proof. by apply (lookup_rest_frame onReadPacket (rest_WritePacket l)). Qed.

Lemma read_after_pause (m : gmap ConnId ConnObj) c c' l :
  onReadPacket (<[c := rest_Pause l (m !!! c)]> m !!! c')
  = onReadPacket (m !!! c').
Proof. by apply (lookup_rest_frame onReadPacket (rest_Pause l)). Qed.

Lemma read_after_read (m : gmap ConnId ConnObj) c l o :
  onReadPacket (<[c := rest_ReadPacket l o]> m !!! c) = l.
Proof. by rewrite lookup_total_insert_eq. Qed.

Create Rewrite HintDb store.
#[local] Hint Rewrite write_after_read pause_after_read pause_after_write
  read_after_write read_after_pause read_after_read : store.

Ltac prim :=
  cbn [fst snd load log call time_Now mret M_ret store_Conn store_transport
       store_once fire emitter_close emitter_submit
       Conn_SetReadDeadline Conn_SetWriteDeadline
       sock conns trace clock onSubmit with_trace with_conns with_sock
       with_onSubmit Conn readTimeout writeTimeout transport once].

Ltac exec :=
  repeat first
    [ rewrite run_bind
    | progress prim
    | progress unfold Conn_ReadPacket, Conn_WritePacket, Conn_Pause,
        Conn_Resume, Conn_Close
    | progress autorewrite with store ].

(** A hypothesis on what a call returns decides the [match] on it. *)
Ltac feed H := exec; rewrite H; cbv beta iota; exec.
Ltac is_type H := rewrite H, bool_decide_eq_true_2 by done; cbn [negb]; exec.
Ltac not_type H := rewrite bool_decide_eq_false_2 by exact H; cbn [negb]; exec.


(** The six ways to fail and the one way to succeed are all there is. *)
Lemma handshake_outcomes (st : State) (newConn : ConnId) :
  handshake_fails st newConn
  ∨ ∃ p p2,
      next_read st newConn = inl p ∧ pktType p = PacketTypePing
      ∧ next_write st newConn = None
      ∧ next_pause st (Conn (sock st)) = None
      ∧ second_read st newConn = inl p2 ∧ pktType p2 = PacketTypeUpgrade.
Proof.
  destruct (next_read st newConn) as [p|err] eqn:H1;
    [|left; by eapply first_read_errors].
  destruct (decide (pktType p = PacketTypePing)) as [Hp|Hp];
    [|left; by eapply first_packet_not_ping].
  destruct (next_write st newConn) as [err|] eqn:H2;
    [left; by eapply pong_write_fails|].
  destruct (next_pause st (Conn (sock st))) as [err|] eqn:H3;
    [left; by eapply pause_fails|].
  destruct (second_read st newConn) as [p2|err] eqn:H4;
    [|left; by eapply second_read_errors].
  destruct (decide (pktType p2 = PacketTypeUpgrade)) as [Hp2|Hp2];
    [|left; by eapply second_packet_not_upgrade].
  right. by exists p, p2.
Qed.

(** Membership of an event in an explicit list of events. *)
Ltac occurs := eexists; solve [repeat constructor].
Ltac absent H :=
  repeat (apply elem_of_cons in H as [H|H]; [discriminate H|]);
  by apply elem_of_nil in H.

(** C1. Whenever the handshake of [upgrade] fails, at whichever step, the
    socket is left as it was, with the conn and the transport it had;
    [Close] has been called on [newConn]; and if [Pause] of the current
    conn had succeeded, the last call made is its [Resume]. *)
Theorem upgrade_failure_keeps_conn (t : string) (newConn : ConnId)
    (st : State) :
  handshake_fails st newConn →
  let st' := (upgrade t newConn st).2 in
  ∃ evs,
    trace st' = trace st ++ evs
    ∧ Conn (sock st') = Conn (sock st)
    ∧ transport (sock st') = transport (sock st)
    ∧ sock st' = sock st
    ∧ (∃ r, EvConnClose newConn r ∈ evs)
    ∧ (EvPause (Conn (sock st)) None ∈ evs →
       ∃ r, last evs = Some (EvResume (Conn (sock st)) r)).
Proof.
  intros Hfail; cbv zeta; unfold upgrade.
  destruct Hfail as [err H1 | p H1 Hp | p err H1 Hp H2 | p err H1 Hp H2 H3
                    | p err H1 Hp H2 H3 H4 | p p2 H1 Hp H2 H3 H4 Hp2];
    unfold next_read, second_read, next_write, next_pause in *;
    feed H1;
    [ | not_type Hp | is_type Hp; feed H2 | is_type Hp; feed H2; feed H3
      | is_type Hp; feed H2; feed H3; feed H4
      | is_type Hp; feed H2; feed H3; feed H4; not_type Hp2 ];
    rewrite <- ?app_assoc; cbn [app];
    (eexists; split; [reflexivity|]);
    (split; [reflexivity|]); (split; [reflexivity|]); (split; [reflexivity|]);
    (split; [occurs|]);
    first [ by (intros _; eexists) | intros Hin; absent Hin ].
Qed.

(** C2. When [newConn] yields a Ping, the Pong with the same payload is
    written, [Pause] of the current conn succeeds and [newConn] then
    yields an Upgrade, the conn of the socket becomes [newConn] and its
    transport the new name, both stored between [Lock] and [Unlock], and
    [EventUpgrade] is fired with the payload of the Upgrade packet. *)
Theorem upgrade_success_swaps (t : string) (newConn : ConnId) (st : State)
    (p p2 : Packet) :
  next_read st newConn = inl p →
  pktType p = PacketTypePing →
  next_write st newConn = None →
  next_pause st (Conn (sock st)) = None →
  second_read st newConn = inl p2 →
  pktType p2 = PacketTypeUpgrade →
  let st' := (upgrade t newConn st).2 in
  Conn (sock st') = newConn
  ∧ transport (sock st') = t
  ∧ ∃ d1 d2 d3,
      trace st' = trace st ++
        [ EvSetReadDeadline newConn d1;
          EvReadPacket newConn (inl p);
          EvSetWriteDeadline newConn d2;
          EvWritePacket newConn
            (mkPacket (msgType p) PacketTypePong (data p)) None;
          EvRLock; EvRUnlock;
          EvPause (Conn (sock st)) None;
          EvSetReadDeadline newConn d3;
          EvReadPacket newConn (inl p2);
          EvLock; EvStoreConn newConn; EvStoreTransport t; EvUnlock;
          EvFire EventUpgrade (msgType p2) (data p2) ].
Proof.
  unfold next_read, second_read, next_write, next_pause.
  intros H1 Hp H2 H3 H4 Hp2; cbv zeta; unfold upgrade.
  feed H1. is_type Hp. feed H2. feed H3. feed H4. is_type Hp2.
  split; [reflexivity|]. split; [reflexivity|].
  rewrite <- ?app_assoc; cbn [app]. unfold with_pktType.
  do 3 eexists. reflexivity.
Qed.

(** Once the [sync.Once] has fired, [Close] does nothing and returns nil. *)
Lemma Close_again (st : State) :
  once (sock st) = true → Close st = (None, st).
Proof.
  intros Hfired. unfold Close. rewrite run_bind. prim. by rewrite Hfired.
Qed.

Lemma Close_first (st : State) :
  once (sock st) = false →
  ∃ err, (Close st).1 = err
    ∧ trace (Close st).2
      = trace st ++ [EvEmitterClose; EvConnClose (Conn (sock st)) err]
    ∧ once (sock (Close st).2) = true.
Proof.
  intros Hfresh. unfold Close. rewrite run_bind. prim. rewrite Hfresh.
  exec. rewrite <- ?app_assoc; cbn [app]. eexists. by repeat split.
Qed.

Lemma Close_times_again (n : nat) (st : State) :
  once (sock st) = true → Close_times n st = (replicate n None, st).
Proof.
  intros Hfired. induction n as [|n IH]; [reflexivity|].
  cbn [Close_times]. rewrite run_bind, (Close_again st Hfired). prim.
  rewrite run_bind, IH. reflexivity.
Qed.

(** C3. [Close] is idempotent: [N] calls in a row, [N ≥ 1], on a socket
    whose [Once] has not fired, close the emitter once and call the
    [Close] of the conn once; the first call returns what the conn
    returned, every later call returns nil and leaves the state as the
    first call left it. *)
Theorem Close_idempotent (N : nat) (st : State) :
  once (sock st) = false →
  (1 ≤ N)%nat →
  let r := Close_times N st in
  ∃ err evs,
    r.1 = err :: replicate (N - 1) None
    ∧ r.2 = (Close st).2
    ∧ trace r.2 = trace st ++ evs
    ∧ evs = [EvEmitterClose; EvConnClose (Conn (sock st)) err]
    ∧ length (filter (λ e, is_ConnClose e = true) evs) = 1%nat
    ∧ length (filter (λ e, is_EmitterClose e = true) evs) = 1%nat.
Proof.
  intros Hfresh HN; cbv zeta.
  destruct N as [|n]; [lia|].
  destruct (Close_first st Hfresh) as (err & Herr & Htrace & Hfired).
  cbn [Close_times]. rewrite run_bind, run_bind.
  rewrite (Close_times_again n _ Hfired). prim.
  exists err, [EvEmitterClose; EvConnClose (Conn (sock st)) err].
  replace (S n - 1)%nat with n by lia.
  rewrite Herr. repeat split; [exact Htrace].
Qed.

(** [upgrade_failure_keeps_conn] at work: the candidate sends a Ping and
    then a Message; the session keeps the polling conn, which is resumed. *)
Lemma upgrade_failure_keeps_conn_witness :
  handshake_fails (Sample.state_with Sample.websocket_chatting) 1%nat
  ∧ Conn (sock (upgrade "websocket" 1%nat
                  (Sample.state_with Sample.websocket_chatting)).2) = 0%nat.
Proof.
  split.
  - by apply (second_packet_not_upgrade _ _ Sample.ping Sample.hello).
  - destruct (upgrade_failure_keeps_conn "websocket" 1%nat
                (Sample.state_with Sample.websocket_chatting))
      as (evs & _ & HConn & _).
    + by apply (second_packet_not_upgrade _ _ Sample.ping Sample.hello).
    + exact HConn.
Defined.

(** [upgrade_success_swaps] at work: Ping, then Upgrade. *)
Lemma upgrade_success_swaps_witness :
  Conn (sock (upgrade "websocket" 1%nat
                (Sample.state_with Sample.websocket_probing)).2) = 1%nat
  ∧ transport (sock (upgrade "websocket" 1%nat
                (Sample.state_with Sample.websocket_probing)).2) = "websocket".
Proof.
  destruct (upgrade_success_swaps "websocket" 1%nat
              (Sample.state_with Sample.websocket_probing)
              Sample.ping Sample.upgrade_packet)
    as (HConn & Htransport & _); try reflexivity.
  by split.
Defined.

(** [Close_idempotent] at work: three calls. *)
Lemma Close_idempotent_witness :
  once (sock (Sample.state_with Sample.websocket_probing)) = false
  ∧ (1 ≤ 3)%nat
  ∧ ∃ err,
      (Close_times 3 (Sample.state_with Sample.websocket_probing)).1
      = [err; None; None].
Proof.
  split; [reflexivity|]. split; [lia|].
  destruct (Close_idempotent 3 (Sample.state_with Sample.websocket_probing))
    as (err & evs & Hrets & _); [reflexivity | lia |].
  exists err. exact Hrets.
Defined.

Section emit_spec.
Context {env : EmitEnv}.

(** C4, as the code has it.  [emit] gives the event its packet type; an
    event without one (among them [EventError] and [EventUpgrade]) is
    answered [ErrInvalidEvent] and nothing is submitted.  Otherwise the
    payload is the bytes of [args] when it is a byte slice, the bytes of
    the string when it is a string, and what [json.Marshal] gives for any
    other value; when [json.Marshal] fails its error is returned and
    nothing is submitted; in every other case the packet, of the message
    type given, is submitted to the emitter, whose result is returned. *)
Theorem emit_submits_or_reports (ev : event) (mt : MessageType)
    (args : iface other) (st : State) :
  let r := emit ev mt args st in
  let submitted pktType payload :=
    r.1 = hd None (onSubmit st)
    ∧ trace r.2 = trace st ++ [EvEmitterSubmit (mkPacket mt pktType payload) r.1]
    ∧ sock r.2 = sock st in
  match event_packetType ev with
  | None => r = (Some ErrInvalidEvent, st)
  | Some pktType =>
    match args with
    | IBytes d => submitted pktType d
    | IString s => submitted pktType (bytes_of_string s)
    | IOther v =>
      match json_Marshal v with
      | inl d => submitted pktType d
      | inr err => r = (Some err, st)
      end
    end
  end.
Proof.
  cbv zeta.
  destruct ev; cbn [event_packetType decide]; try reflexivity;
    destruct args as [d|s|v]; cbn [emit]; try done;
    destruct (json_Marshal v); done.
Qed.

End emit_spec.

(** The mapping of [emit], event by event. *)
Lemma event_packetType_table :
  event_packetType EventOpen = Some PacketTypeOpen
  ∧ event_packetType EventMessage = Some PacketTypeMessage
  ∧ event_packetType EventClose = Some PacketTypeClose
  ∧ event_packetType EventPing = Some PacketTypePing
  ∧ event_packetType EventPong = Some PacketTypePong
  ∧ event_packetType EventError = None
  ∧ event_packetType EventUpgrade = None
  ∧ ∀ n, event_packetType (EventOther n) = None.
Proof. by repeat split. Qed.

(** C4, as the claim has it, fails: a channel is neither a byte slice nor
    a string, [json.Marshal] refuses it, and [emit] returns that error
    without submitting a packet. *)
Lemma emit_unmarshalable_not_submitted :
  let r := emit (env:=Sample.emit_env) EventMessage MessageTypeString
             (IOther Sample.GoChan)
             (Sample.state_with Sample.websocket_probing) in
  event_packetType EventMessage = Some PacketTypeMessage
  ∧ r.1 = Some "json: unsupported type: chan int"
  ∧ ¬ ∃ p e, EvEmitterSubmit p e ∈ trace r.2.
Proof.
  cbv zeta. split; [reflexivity|]. split; [reflexivity|].
  intros (p & e & Hin). cbn in Hin. by apply elem_of_nil in Hin.
Qed.

(* --------------------------------------------------------------------- *)
(** ** Further properties of [upgrade], [Close] and [emit]               *)
(* --------------------------------------------------------------------- *)

(** Every run of [upgrade] has one of the seven shapes, and touches
    neither the clock nor the results the emitter has in store. *)
Lemma upgrade_runs (t : string) (newConn : ConnId) (st : State) :
  ∃ evs,
    trace (upgrade t newConn st).2 = trace st ++ evs
    ∧ upgrade_run (sock st) t newConn evs (sock (upgrade t newConn st).2)
    ∧ onSubmit (upgrade t newConn st).2 = onSubmit st.
Proof.
  destruct (handshake_outcomes st newConn) as [Hfail|Hok].
  - destruct Hfail as [err H1 | p H1 Hp | p err H1 Hp H2 | p err H1 Hp H2 H3
                      | p err H1 Hp H2 H3 H4 | p p2 H1 Hp H2 H3 H4 Hp2];
      unfold next_read, second_read, next_write, next_pause in *;
      unfold upgrade; feed H1;
      [ | not_type Hp | is_type Hp; feed H2 | is_type Hp; feed H2; feed H3
        | is_type Hp; feed H2; feed H3; feed H4
        | is_type Hp; feed H2; feed H3; feed H4; not_type Hp2 ];
      rewrite <- ?app_assoc; cbn [app];
      (eexists; split; [reflexivity|]); (split; [|reflexivity]);
      destruct (sock st); by econstructor.
  - destruct Hok as (p & p2 & H1 & Hp & H2 & H3 & H4 & Hp2).
    unfold next_read, second_read, next_write, next_pause in *.
    unfold upgrade. feed H1. is_type Hp. feed H2. feed H3. feed H4.
    is_type Hp2. rewrite <- ?app_assoc; cbn [app].
    eexists; split; [reflexivity|]; split; [|reflexivity].
    by econstructor.
Qed.

(** Filters over an explicit list of events. *)
Ltac count :=
  cbn [List.filter closes resumes is_mutex is_WritePacket is_emitter
       is_ConnClose is_EmitterClose is_EmitterSubmit is_store is_Fire app];
  repeat (first [ rewrite !bool_decide_eq_true_2 by done
                | rewrite !bool_decide_eq_false_2 by done ]);
  cbn [List.filter app length].

(** The mutex of the socket is never left held: whatever the run, the
    lock operations of [upgrade] are none, or [RLock; RUnlock], or
    [RLock; RUnlock; Lock; Unlock]. *)
Theorem upgrade_mutex_balanced (t : string) (newConn : ConnId) (st : State) :
  ∃ evs,
    trace (upgrade t newConn st).2 = trace st ++ evs
    ∧ (List.filter is_mutex evs = []
       ∨ List.filter is_mutex evs = [EvRLock; EvRUnlock]
       ∨ List.filter is_mutex evs
         = [EvRLock; EvRUnlock; EvLock; EvUnlock]).
Proof.
  destruct (upgrade_runs t newConn st) as (evs & Htrace & Hrun & _).
  exists evs. split; [exact Htrace|].
  destruct Hrun; count; auto.
Qed.

(** The only packet [upgrade] ever writes is one Pong on [newConn], with
    the message type and the payload of a Ping it has read there. *)
Theorem upgrade_writes_only_the_pong (t : string) (newConn : ConnId)
    (st : State) :
  ∃ evs,
    trace (upgrade t newConn st).2 = trace st ++ evs
    ∧ (length (List.filter is_WritePacket evs) ≤ 1)%nat
    ∧ ∀ c p r,
        EvWritePacket c p r ∈ evs →
        c = newConn
        ∧ ∃ ping,
            EvReadPacket newConn (inl ping) ∈ evs
            ∧ pktType ping = PacketTypePing
            ∧ p = mkPacket (msgType ping) PacketTypePong (data ping).
Proof.
  destruct (upgrade_runs t newConn st) as (evs & Htrace & Hrun & _).
  exists evs. split; [exact Htrace|].
  destruct Hrun as [d1 err r | d1 p r Hp | d1 d2 p err r Hp
                   | d1 d2 p err r Hp | d1 d2 d3 p err r r' Hp
                   | d1 d2 d3 p p2 r r' Hp Hp2 | d1 d2 d3 p p2 Hp Hp2];
    (split; [count; lia|]); intros c q res Hin;
    repeat (apply elem_of_cons in Hin as [Hin|Hin];
            [try discriminate Hin|]);
    try (by apply elem_of_nil in Hin);
    injection Hin as -> -> _; (split; [done|]); exists p;
    (split; [solve [repeat constructor] | done]).
Qed.

(** [upgrade] leaves the emitter alone, and with it the [Once] and the
    timeouts of the socket: it neither closes the emitter nor submits to
    it, in any run. *)
Theorem upgrade_spares_emitter_and_once (t : string) (newConn : ConnId)
    (st : State) :
  let st' := (upgrade t newConn st).2 in
  ∃ evs,
    trace st' = trace st ++ evs
    ∧ List.filter is_emitter evs = []
    ∧ onSubmit st' = onSubmit st
    ∧ once (sock st') = once (sock st)
    ∧ readTimeout (sock st') = readTimeout (sock st)
    ∧ writeTimeout (sock st') = writeTimeout (sock st).
Proof.
  cbv zeta.
  destruct (upgrade_runs t newConn st) as (evs & Htrace & Hrun & Hsubmit).
  exists evs. split; [exact Htrace|].
  destruct Hrun; by repeat split.
Qed.

(** A candidate that is not the conn of the socket: [upgrade] never calls
    [Close] on the conn of the socket, whether the handshake completes or
    not. *)
Theorem upgrade_never_closes_current_conn (t : string) (newConn : ConnId)
    (st : State) :
  newConn ≠ Conn (sock st) →
  ∃ evs,
    trace (upgrade t newConn st).2 = trace st ++ evs
    ∧ List.filter (closes (Conn (sock st))) evs = [].
Proof.
  intros Hother.
  destruct (upgrade_runs t newConn st) as (evs & Htrace & Hrun & _).
  exists evs. split; [exact Htrace|].
  destruct Hrun; by count.
Qed.

(** A candidate is installed or closed, never both and never neither.
    Either the run ends by firing [EventUpgrade], the socket holds
    [newConn] under the new transport name and [newConn] has not been
    closed; or the socket is as it was, [newConn] has been closed once,
    no field has been stored and no event fired. *)
Theorem upgrade_installs_or_closes (t : string) (newConn : ConnId)
    (st : State) :
  let st' := (upgrade t newConn st).2 in
  ∃ evs,
    trace st' = trace st ++ evs
    ∧ ((Conn (sock st') = newConn
        ∧ transport (sock st') = t
        ∧ List.filter (closes newConn) evs = []
        ∧ List.filter is_store evs
          = [EvStoreConn newConn; EvStoreTransport t]
        ∧ ∃ mt d, List.filter is_Fire evs = [EvFire EventUpgrade mt d])
       ∨ (sock st' = sock st
          ∧ length (List.filter (closes newConn) evs) = 1%nat
          ∧ List.filter is_store evs = []
          ∧ List.filter is_Fire evs = [])).
Proof.
  cbv zeta.
  destruct (upgrade_runs t newConn st) as (evs & Htrace & Hrun & _).
  exists evs. split; [exact Htrace|].
  destruct Hrun; [right; by count.. | left].
  count. repeat split; eauto.
Qed.

(** [upgrade] followed by [Close], on a socket not closed before and for
    a candidate other than its conn: [newConn] is closed exactly once
    whatever the handshake did, by [upgrade] when it failed and by
    [Close] when it completed.  The conn the socket had is closed once
    when the handshake failed, and not at all when it completed. *)
Theorem upgrade_then_Close_closes_candidate_once (t : string)
    (newConn : ConnId) (st : State) :
  once (sock st) = false →
  newConn ≠ Conn (sock st) →
  let st2 := (upgrade_then_Close t newConn st).2 in
  ∃ evs,
    trace st2 = trace st ++ evs
    ∧ length (List.filter (closes newConn) evs) = 1%nat
    ∧ length (List.filter (closes (Conn (sock st))) evs)
      = (if bool_decide (Conn (sock st2) = newConn) then 0 else 1)%nat
    ∧ length (List.filter is_EmitterClose evs) = 1%nat.
Proof.
  intros Hfresh Hother; cbv zeta. unfold upgrade_then_Close.
  rewrite run_bind.
  destruct (upgrade_runs t newConn st) as (evs & Htrace & Hrun & _).
  set (st1 := (upgrade t newConn st).2) in *.
  assert (once (sock st1) = false) as Hfresh1.
  { rewrite <- Hfresh. by destruct Hrun. }
  destruct (Close_first st1 Hfresh1) as (err & _ & Hclose & _).
  assert (Conn (sock (Close st1).2) = Conn (sock st1)) as HConn.
  { unfold Close. rewrite run_bind. prim. rewrite Hfresh1. by exec. }
  rewrite HConn, Hclose, Htrace, <- app_assoc.
  eexists; split; [reflexivity|].
  destruct Hrun; count; rewrite ?List.filter_app; count; done.
Qed.

(** A handshake that completes on a socket closed before: the socket
    takes [newConn] all the same, and no later [Close] reaches it. The
    calls of [Close] return nil and leave the state as [upgrade] left it,
    so that [newConn] is never closed. *)
Theorem Close_ignores_late_upgrade (t : string) (newConn : ConnId)
    (st : State) (n : nat) :
  once (sock st) = true →
  let st1 := (upgrade t newConn st).2 in
  let r := upgrade_then_Close_times t newConn n st in
  r.1 = replicate n None
  ∧ r.2 = st1
  ∧ ∃ evs,
      trace r.2 = trace st ++ evs
      ∧ List.filter is_EmitterClose evs = []
      ∧ (Conn (sock st1) = newConn → newConn ≠ Conn (sock st) →
         List.filter (closes newConn) evs = []).
Proof.
  intros Hfired; cbv zeta. unfold upgrade_then_Close_times. rewrite run_bind.
  destruct (upgrade_runs t newConn st) as (evs & Htrace & Hrun & _).
  assert (once (sock (upgrade t newConn st).2) = true) as Hfired1.
  { rewrite <- Hfired. by destruct Hrun. }
  rewrite (Close_times_again n _ Hfired1). cbn [fst snd].
  split; [done|]. split; [done|].
  exists evs. split; [exact Htrace|].
  destruct Hrun; (split; [done|]); intros HConn Hother; done.
Qed.

Section emit_more.
Context {env : EmitEnv}.

(** All [emit] ever does is submit one packet to the emitter, or nothing:
    it does not touch the socket or the conns.  A packet it submits has
    the message type it was given and the packet type of the event, and
    what [emit] returns then is what [submit] returned. *)
Theorem emit_only_submits (ev : event) (mt : MessageType)
    (args : iface other) (st : State) :
  let r := emit ev mt args st in
  sock r.2 = sock st
  ∧ conns r.2 = conns st
  ∧ ((r.2 = st ∧ is_Some r.1)
     ∨ ∃ p,
         trace r.2 = trace st ++ [EvEmitterSubmit p r.1]
         ∧ msgType p = mt
         ∧ event_packetType ev = Some (pktType p)
         ∧ r.1 = hd None (onSubmit st)
         ∧ onSubmit r.2 = tl (onSubmit st)).
Proof.
  cbv zeta. unfold emit.
  destruct ev; try (split; [done|]; split; [done|]; left; by eauto);
    (destruct args as [d|s|v]; [| |destruct (json_Marshal v) as [d|e]]);
    (split; [done|]; split; [done|]);
    try (left; by eauto); right; eexists; by repeat split.
Qed.

(** [Send] submits a Message packet of message type String, for a byte
    slice as for a string, with the bytes as they are, and returns what
    the emitter answered. *)
Theorem Send_submits_message (payload : bytes + string) (st : State) :
  let args := match payload with inl d => IBytes d | inr s => IString s end in
  let d := match payload with inl d => d | inr s => bytes_of_string s end in
  let r := Send args st in
  r.1 = hd None (onSubmit st)
  ∧ trace r.2
    = trace st
      ++ [EvEmitterSubmit
            (mkPacket MessageTypeString PacketTypeMessage d) r.1].
Proof. cbv zeta. by destruct payload. Qed.

End emit_more.

(** [upgrade_never_closes_current_conn] at work. *)
Lemma upgrade_never_closes_current_conn_witness :
  (1%nat : ConnId) ≠ Conn (sock (Sample.state_with Sample.websocket_probing))
  ∧ ∃ evs,
      trace (upgrade "websocket" 1%nat
               (Sample.state_with Sample.websocket_probing)).2
      = trace (Sample.state_with Sample.websocket_probing) ++ evs
      ∧ List.filter (closes 0%nat) evs = [].
Proof.
  split; [done|].
  apply (upgrade_never_closes_current_conn "websocket" 1%nat
           (Sample.state_with Sample.websocket_probing)).
  done.
Defined.

(** [upgrade_then_Close_closes_candidate_once] at work, on a handshake
    that fails at the second packet. *)
Lemma upgrade_then_Close_closes_candidate_once_witness :
  once (sock (Sample.state_with Sample.websocket_chatting)) = false
  ∧ ∃ evs,
      trace (upgrade_then_Close "websocket" 1%nat
               (Sample.state_with Sample.websocket_chatting)).2
      = trace (Sample.state_with Sample.websocket_chatting) ++ evs
      ∧ length (List.filter (closes 1%nat) evs) = 1%nat.
Proof.
  split; [reflexivity|].
  destruct (upgrade_then_Close_closes_candidate_once "websocket" 1%nat
              (Sample.state_with Sample.websocket_chatting))
    as (evs & Htrace & Hcandidate & _); [reflexivity | done |].
  by exists evs.
Defined.

(** [Close_ignores_late_upgrade] at work: the session is closed, then
    the candidate completes the handshake. *)
Lemma Close_ignores_late_upgrade_witness :
  once (sock (Close (Sample.state_with Sample.websocket_probing)).2) = true
  ∧ (upgrade_then_Close_times "websocket" 1%nat 2
       (Close (Sample.state_with Sample.websocket_probing)).2).1
    = [None; None]
  ∧ Conn (sock (upgrade_then_Close_times "websocket" 1%nat 2
                  (Close (Sample.state_with Sample.websocket_probing)).2).2)
    = 1%nat.
Proof.
  split; [reflexivity|].
  destruct (Close_ignores_late_upgrade "websocket" 1%nat
              (Close (Sample.state_with Sample.websocket_probing)).2 2
              eq_refl) as (Hrets & Hstate & _).
  split; [exact Hrets|]. by rewrite Hstate.
Defined.
End EngineSpec.

(* ===================================================================== *)
(** * Properties of the polling handler                                  *)
(* ===================================================================== *)

Module PollingSpec.
Import engine.

Lemma eqb_differs (s1 s2 : string) : s1 ≠ s2 → String.eqb s1 s2 = false.
Proof. by intros ?%String.eqb_neq. Qed.

(** The comparison of the charset does not look at the case of letters. *)
Lemma ToLower_UTF8 :
  strings_ToLower "UTF-8" = "utf-8" ∧ strings_ToLower "Utf-8" = "utf-8"
  ∧ strings_ToLower "utf-8" = "utf-8" ∧ strings_ToLower "latin1" ≠ "utf-8".
Proof. by repeat split. Qed.

Section handler.
Context {env : PollingEnv}.

(** The loop over the decoded packets when every [select] sends. *)
Lemma push_in_all_sent sched (pkts : list Packet) : ∀ i p,
  (∀ j, (j < length pkts)%nat → sched (i + j)%nat = SendIn) →
  push_in sched i pkts p = (false, mkPolling (closed p) (in_ p ++ pkts)).
Proof.
  induction pkts as [|pkt pkts IH]; intros i p Hsched; cbn [push_in].
  - rewrite app_nil_r. by destruct p.
  - specialize (Hsched 0%nat) as H0. rewrite Nat.add_0_r in H0.
    rewrite H0 by (cbn; lia). rewrite IH.
    + cbn [closed in_]. by rewrite <- app_assoc.
    + intros j Hj. replace (S i + j)%nat with (i + S j)%nat by lia.
      apply Hsched. cbn; lia.
Qed.

(** The loop when the closed signal is taken at iteration [k], the first
    to take it: the [k] packets before it have been sent, no other. *)
Lemma push_in_closed sched (pkts : list Packet) : ∀ i k p,
  (k < length pkts)%nat →
  sched (i + k)%nat = RecvClosed →
  (∀ j, (j < k)%nat → sched (i + j)%nat = SendIn) →
  push_in sched i pkts p = (true, mkPolling true (in_ p ++ take k pkts)).
Proof.
  induction pkts as [|pkt pkts IH]; intros i k p Hk Hclosed Hsent;
    cbn [length] in Hk; [lia|].
  cbn [push_in]. destruct k as [|k].
  - rewrite Nat.add_0_r in Hclosed. rewrite Hclosed.
    cbn [take]. by rewrite app_nil_r.
  - specialize (Hsent 0%nat) as H0. rewrite Nat.add_0_r in H0.
    rewrite H0 by lia. rewrite (IH (S i) k).
    + cbn [in_ take]. by rewrite <- app_assoc.
    + lia.
    + by replace (S i + k)%nat with (i + S k)%nat by lia.
    + intros j Hj. replace (S i + j)%nat with (i + S j)%nat by lia.
      apply Hsent. lia.
Qed.

(** C9, as the code has it.  A request that reaches a polling conn whose
    closed signal has fired is answered 400, with the text of
    [ErrPollingConnClosed], whatever its method; the conn is left as it
    was. *)
Theorem closed_conn_answers_400 sched (p : pollingConn) (ctx : RequestCtx) :
  isClosed p = true →
  let r := HandleFastHTTP sched p ctx in
  StatusCode (ctxResponse (ctx_after r)) = StatusBadRequest
  ∧ respBody (ctxResponse (ctx_after r)) = bytes_of_string ErrPollingConnClosed
  ∧ conn_after r = p.
Proof.
  intros Hclosed; cbv zeta. unfold HandleFastHTTP. by rewrite Hclosed.
Qed.

(** C7. A POST whose Content-Type does not parse, or is [text/plain] with
    a charset other than utf-8 (in any case of letters), or is any media
    type but [application/octet-stream] and [text/plain], is answered 400
    and nothing is sent on [p.in]. *)
Theorem post_rejected_content_type sched (p : pollingConn)
    (ctx : RequestCtx) :
  Method (ctxRequest ctx) = "POST" →
  rejected_content_type
    (Header_Peek (reqHeader (ctxRequest ctx)) "Content-Type") →
  let r := HandleFastHTTP sched p ctx in
  StatusCode (ctxResponse (ctx_after r)) = StatusBadRequest
  ∧ in_ (conn_after r) = in_ p.
Proof.
  intros Hpost Hrejected; cbv zeta. unfold HandleFastHTTP.
  destruct (isClosed p); [done|]. rewrite Hpost. cbn [String.eqb Ascii.eqb Bool.eqb].
  destruct Hrejected as [err Hparse | params Hparse Hcharset
                        | mediatype params Hparse Hnot1 Hnot2];
    rewrite Hparse; [done | |].
  - cbn [String.eqb Ascii.eqb Bool.eqb].
    by rewrite (eqb_differs _ _ Hcharset).
  - by rewrite (eqb_differs _ _ Hnot1), (eqb_differs _ _ Hnot2).
Qed.

(** C6, as the code has it.  A POST with an accepted content type that
    reaches a conn whose closed signal has not fired: the body is decoded
    as a payload, in xhr2 form for [application/octet-stream] and in
    textual form for [text/plain]; when decoding fails the answer is 500
    and nothing is sent; otherwise the packets are sent on [p.in] in
    order, until a [select] takes the closed signal, which answers 404
    and leaves the remaining packets unsent; when no [select] does, the
    answer is 200. *)
Theorem post_pushes_in_order sched (p : pollingConn) (ctx : RequestCtx)
    (form : bool) (payload : Payload) (err : option error) :
  isClosed p = false →
  Method (ctxRequest ctx) = "POST" →
  accepted_content_type
    (Header_Peek (reqHeader (ctxRequest ctx)) "Content-Type") form →
  Payload_ReadFrom (mkPayload [] form) (Body (ctxRequest ctx))
    = (payload, err) →
  let r := HandleFastHTTP sched p ctx in
  let status := StatusCode (ctxResponse (ctx_after r)) in
  match err with
  | Some _ => status = StatusInternalServerError ∧ in_ (conn_after r) = in_ p
  | None =>
    (∀ k, (k < length (packets payload))%nat →
          sched k = RecvClosed →
          (∀ j, (j < k)%nat → sched j = SendIn) →
          status = StatusNotFound
          ∧ in_ (conn_after r) = in_ p ++ take k (packets payload))
    ∧ ((∀ j, (j < length (packets payload))%nat → sched j = SendIn) →
       status = StatusOK
       ∧ in_ (conn_after r) = in_ p ++ packets payload)
  end.
Proof.
  intros Hopen Hpost Haccepted Hdecode; cbv zeta. unfold HandleFastHTTP.
  rewrite Hopen, Hpost. cbn [String.eqb Ascii.eqb Bool.eqb].
  destruct Haccepted as [params Hparse | params Hparse Hcharset];
    rewrite Hparse; cbn [String.eqb Ascii.eqb Bool.eqb];
    rewrite ?Hcharset; cbn [String.eqb Ascii.eqb Bool.eqb negb];
    rewrite Hdecode; (destruct err as [e|]; [done|]);
    (split; [intros k Hk Hclosed Hsent; by rewrite (push_in_closed sched _ 0 k)
            | intros Hsent; by rewrite (push_in_all_sent sched _ 0) ]).
Qed.

(** C8, as the code has it.  A GET that obtains a packet and whose
    request URI parses: a non-empty [j] parameter selects JSONP, with
    Content-Type [text/javascript; charset=UTF-8]; otherwise [b64=1]
    selects the textual encoding, with [text/plain; charset=UTF-8];
    otherwise the xhr2 encoding of the packet is written, with
    [application/octet-stream].  When the encoder reports no error the
    body is extended by the encoding and the status code is set to 200;
    in every case a response whose status was 200 on entry still has it. *)
Theorem get_selects_wire_format sched (p p' : pollingConn) (ctx : RequestCtx)
    (pkt : Packet) (rURL : URL) :
  isClosed p = false →
  Method (ctxRequest ctx) = "GET" →
  ReadPacketOut p = (inl pkt, p') →
  url_ParseRequestURI (RequestURI (ctxRequest ctx)) = inl rURL →
  let r := HandleFastHTTP sched p ctx in
  let before := ctxResponse ctx in
  let after := ctxResponse (ctx_after r) in
  let jsonp := Values_Get (URL_Query rURL) queryJSONP in
  let b64 := Values_Get (URL_Query rURL) queryBase64 in
  (jsonp ≠ "" →
     respHeader after !! "Content-Type" = Some "text/javascript; charset=UTF-8"
     ∧ ∀ text encoded,
         WriteTo pkt = (text, None) →
         json_Encode (String.string_of_list_byte text) = inl encoded →
         StatusCode after = StatusOK
         ∧ respBody after
           = respBody before
             ++ bytes_of_string
                  ("___eio[" +:+ jsonp +:+ "](" +:+ dquote
                   +:+ String.string_of_list_byte encoded
                   +:+ dquote +:+ ");"))
  ∧ (jsonp = "" → b64 = "1" →
     respHeader after !! "Content-Type" = Some "text/plain; charset=UTF-8"
     ∧ ∀ text,
         WriteTo pkt = (text, None) →
         StatusCode after = StatusOK
         ∧ respBody after = respBody before ++ text)
  ∧ (jsonp = "" → b64 ≠ "1" →
     respHeader after !! "Content-Type" = Some "application/octet-stream"
     ∧ ∀ binary,
         WriteTo (Packet_packet2 pkt) = (binary, None) →
         StatusCode after = StatusOK
         ∧ respBody after = respBody before ++ binary)
  ∧ (StatusCode before = StatusOK → StatusCode after = StatusOK)
  ∧ conn_after r = p'.
Proof.
  intros Hopen Hget Hread Hparse; cbv zeta. unfold HandleFastHTTP.
  rewrite Hopen, Hget. cbn [String.eqb Ascii.eqb Bool.eqb].
  rewrite Hread, Hparse.
  set (jsonp := Values_Get (URL_Query rURL) queryJSONP).
  set (b64 := Values_Get (URL_Query rURL) queryBase64).
  destruct (String.eqb_spec jsonp "") as [Hj|Hj]; cbn [negb];
    [destruct (String.eqb_spec b64 "1") as [Hb|Hb]|].
  - (* textual *)
    unfold fastWriteXHR. destruct (WriteTo pkt) as [text [e|]] eqn:Hw;
      (split; [done|]); (split; [|split; [done|by split]]); intros _ _;
      (split; [apply lookup_insert_eq|]); intros text' [= <-]; by split.
  - (* xhr2 *)
    unfold fastWriteXHR2.
    destruct (WriteTo (Packet_packet2 pkt)) as [binary [e|]] eqn:Hw;
      (split; [done|]); (split; [done|]); (split; [|by split]); intros _ _;
      (split; [apply lookup_insert_eq|]); intros b' [= <-]; by split.
  - (* JSONP *)
    unfold fastWriteJSONP. destruct (WriteTo pkt) as [text [e|]] eqn:Hw;
      [|destruct (json_Encode (String.string_of_list_byte text))
          as [encoded|e] eqn:He];
      (split; [|split; [done|split; [done|by split]]]); intros _;
      (split; [apply lookup_insert_eq|]); intros text' encoded' [= <-];
      rewrite ?He; intros [= <-]; by split.
Qed.

End handler.

(** [closed_conn_answers_400] at work. *)
Lemma closed_conn_answers_400_witness :
  isClosed Sample.closed_conn = true
  ∧ StatusCode (ctxResponse (ctx_after
      (HandleFastHTTP (env:=Sample.polling_env) Sample.all_sent
         Sample.closed_conn Sample.post_utf8))) = 400.
Proof.
  split; [reflexivity|].
  by destruct (closed_conn_answers_400 (env:=Sample.polling_env)
                 Sample.all_sent Sample.closed_conn Sample.post_utf8)
    as (Hstatus & _).
Defined.

(** C9, as the claim has it, fails: a GET on a closed conn is answered 400,
    not 404. *)
Lemma closed_conn_not_404 :
  let r := HandleFastHTTP (env:=Sample.polling_env) Sample.all_sent
             Sample.closed_conn Sample.get_xhr2 in
  isClosed Sample.closed_conn = true
  ∧ StatusCode (ctxResponse (ctx_after r)) = 400
  ∧ StatusCode (ctxResponse (ctx_after r)) ≠ StatusNotFound.
Proof. by cbv zeta. Qed.

(** [post_rejected_content_type] at work: [text/plain] in latin1. *)
Lemma post_rejected_content_type_witness :
  Method (ctxRequest Sample.post_latin1) = "POST"
  ∧ rejected_content_type (env:=Sample.polling_env)
      (Header_Peek (reqHeader (ctxRequest Sample.post_latin1)) "Content-Type")
  ∧ StatusCode (ctxResponse (ctx_after
      (HandleFastHTTP (env:=Sample.polling_env) Sample.all_sent
         Sample.open_conn Sample.post_latin1))) = 400.
Proof.
  assert (rejected_content_type (env:=Sample.polling_env)
            (Header_Peek (reqHeader (ctxRequest Sample.post_latin1))
               "Content-Type")) as Hrejected.
  { by apply (wrong_charset _ {[ "charset" := "latin1" ]}). }
  split; [reflexivity|]. split; [exact Hrejected|].
  by destruct (post_rejected_content_type (env:=Sample.polling_env)
                 Sample.all_sent Sample.open_conn Sample.post_latin1
                 eq_refl Hrejected)
    as (Hstatus & _).
Defined.

(** [post_pushes_in_order] at work: two packets in the body, the closed
    signal is taken at the second; the first has been sent, the answer
    is 404. *)
Lemma post_pushes_in_order_witness :
  let r := HandleFastHTTP (env:=Sample.polling_env) Sample.closed_at_1
             Sample.open_conn Sample.post_utf8 in
  accepted_content_type (env:=Sample.polling_env)
    (Header_Peek (reqHeader (ctxRequest Sample.post_utf8)) "Content-Type")
    false
  ∧ StatusCode (ctxResponse (ctx_after r)) = 404
  ∧ in_ (conn_after r) = [Sample.world].
Proof.
  cbv zeta.
  assert (accepted_content_type (env:=Sample.polling_env)
            (Header_Peek (reqHeader (ctxRequest Sample.post_utf8))
               "Content-Type") false) as Haccepted.
  { by apply (text_plain_utf8 _ {[ "charset" := "UTF-8" ]}). }
  split; [exact Haccepted|].
  destruct (post_pushes_in_order (env:=Sample.polling_env) Sample.closed_at_1
              Sample.open_conn Sample.post_utf8 false
              (mkPayload [Sample.world; Sample.hello] false) None
              eq_refl eq_refl Haccepted eq_refl) as [Hclosed _].
  apply (Hclosed 1%nat); [cbn; lia | reflexivity |].
  intros j Hj. by replace j with 0%nat by lia.
Defined.

(** C6, as the claim has it, fails: on a conn that is closed already the
    POST is answered 400, which is neither the 404 nor the 200 of the
    claim. *)
Lemma post_on_closed_conn_is_400 :
  let r := HandleFastHTTP (env:=Sample.polling_env) Sample.all_sent
             Sample.closed_conn Sample.post_utf8 in
  accepted_content_type (env:=Sample.polling_env)
    (Header_Peek (reqHeader (ctxRequest Sample.post_utf8)) "Content-Type")
    false
  ∧ StatusCode (ctxResponse (ctx_after r)) = 400
  ∧ StatusCode (ctxResponse (ctx_after r)) ≠ StatusNotFound
  ∧ StatusCode (ctxResponse (ctx_after r)) ≠ StatusOK.
Proof.
  cbv zeta. split; [|done].
  by apply (text_plain_utf8 _ {[ "charset" := "UTF-8" ]}).
Qed.

(** [get_selects_wire_format] at work: [j=0] selects JSONP. *)
Lemma get_selects_wire_format_witness :
  let r := HandleFastHTTP (env:=Sample.polling_env) Sample.all_sent
             Sample.open_conn Sample.get_jsonp in
  isClosed Sample.open_conn = false
  ∧ Method (ctxRequest Sample.get_jsonp) = "GET"
  ∧ respHeader (ctxResponse (ctx_after r)) !! "Content-Type"
    = Some "text/javascript; charset=UTF-8"
  ∧ StatusCode (ctxResponse (ctx_after r)) = 200.
Proof.
  cbv zeta. split; [reflexivity|]. split; [reflexivity|].
  destruct (get_selects_wire_format (env:=Sample.polling_env) Sample.all_sent
              Sample.open_conn Sample.open_conn Sample.get_jsonp
              Sample.hello {[ "j" := ["0"] ]} eq_refl eq_refl eq_refl eq_refl)
    as (Hjsonp & _ & _ & Hstatus & _).
  split; [by apply Hjsonp | by apply Hstatus].
Defined.

(** C8, as the claim has it, fails: the GET obtains a packet, the request
    URI does not parse, and the answer is 400. *)
Lemma get_unparseable_uri_is_400 :
  let r := HandleFastHTTP (env:=Sample.polling_env) Sample.all_sent
             Sample.open_conn Sample.get_broken_escape in
  isClosed Sample.open_conn = false
  ∧ ReadPacketOut (PollingEnv:=Sample.polling_env) Sample.open_conn
    = (inl Sample.hello, Sample.open_conn)
  ∧ StatusCode (ctxResponse (ctx_after r)) = 400
  ∧ StatusCode (ctxResponse (ctx_after r)) ≠ StatusOK.
Proof. by cbv zeta. Qed.

(* --------------------------------------------------------------------- *)
(** ** Further properties of the polling handler                         *)
(* --------------------------------------------------------------------- *)

Section handler_more.
Context {env : PollingEnv}.

(** The loop over the decoded packets under any scheduler: it sends a
    prefix of the packets, all of them exactly when no [select] takes the
    closed signal. *)
Lemma push_in_prefix sched (pkts : list Packet) : ∀ i p,
  ∃ k,
    (k ≤ length pkts)%nat
    ∧ in_ (push_in sched i pkts p).2 = in_ p ++ take k pkts
    ∧ ((k = length pkts
        ∧ (push_in sched i pkts p).1 = false
        ∧ closed (push_in sched i pkts p).2 = closed p
        ∧ ∀ j, (j < k)%nat → sched (i + j)%nat = SendIn)
       ∨ ((k < length pkts)%nat
          ∧ (push_in sched i pkts p).1 = true
          ∧ closed (push_in sched i pkts p).2 = true
          ∧ sched (i + k)%nat = RecvClosed)).
Proof.
  induction pkts as [|pkt pkts IH]; intros i p; cbn [push_in].
  - exists 0%nat. cbn. rewrite app_nil_r. split; [lia|]. split; [done|].
    left. repeat split. intros j Hj; lia.
  - destruct (sched i) eqn:Hi.
    + exists 0%nat. cbn. rewrite app_nil_r, Nat.add_0_r.
      split; [lia|]. split; [done|]. right. repeat split; [lia|done].
    + destruct (IH (S i) (mkPolling (closed p) (in_ p ++ [pkt])))
        as (k & Hk & Hin & Hcases).
      exists (S k). cbn [length take]. split; [lia|].
      split; [rewrite Hin; cbn [in_]; by rewrite <- app_assoc|].
      destruct Hcases as [(-> & Hno & Hclosed & Hsent)
                         | (Hlt & Hyes & Hclosed & Htaken)].
      * left. repeat split; [done..|].
        intros [|j] Hj; [by rewrite Nat.add_0_r|].
        replace (i + S j)%nat with (S i + j)%nat by lia. apply Hsent. lia.
      * right. repeat split; [lia|done..|].
        by replace (i + S k)%nat with (S i + k)%nat by lia.
Qed.

(** A request that is neither a GET nor a POST, on a conn that is not
    closed, is answered 405; the conn is left as it was and nothing is
    logged. *)
Theorem other_method_answers_405 sched (p : pollingConn) (ctx : RequestCtx) :
  isClosed p = false →
  Method (ctxRequest ctx) ≠ "GET" →
  Method (ctxRequest ctx) ≠ "POST" →
  let r := HandleFastHTTP sched p ctx in
  StatusCode (ctxResponse (ctx_after r)) = StatusMethodNotAllowed
  ∧ conn_after r = p
  ∧ logged r = [].
Proof.
  intros Hopen Hget Hpost; cbv zeta. unfold HandleFastHTTP.
  by rewrite Hopen, (eqb_differs _ _ Hget), (eqb_differs _ _ Hpost).
Qed.

(** A GET for which [ReadPacketOut] fails is answered 404 with the text
    of the error, whatever the request URI and the query say; the conn
    is left as [ReadPacketOut] left it. *)
Theorem get_without_packet_answers_404 sched (p p' : pollingConn)
    (ctx : RequestCtx) (err : error) :
  isClosed p = false →
  Method (ctxRequest ctx) = "GET" →
  ReadPacketOut p = (inr err, p') →
  let r := HandleFastHTTP sched p ctx in
  StatusCode (ctxResponse (ctx_after r)) = StatusNotFound
  ∧ respBody (ctxResponse (ctx_after r)) = bytes_of_string err
  ∧ conn_after r = p'.
Proof.
  intros Hopen Hget Hread; cbv zeta. unfold HandleFastHTTP.
  rewrite Hopen, Hget. cbn [String.eqb Ascii.eqb Bool.eqb].
  by rewrite Hread.
Qed.

(** A GET that has taken a packet off the conn and whose request URI
    does not parse: the answer is 400 with the text of the parse error,
    and the packet is gone, the conn being left as [ReadPacketOut] left
    it and the packet written nowhere. *)
Theorem get_bad_uri_loses_packet sched (p p' : pollingConn)
    (ctx : RequestCtx) (pkt : Packet) (err : error) :
  isClosed p = false →
  Method (ctxRequest ctx) = "GET" →
  ReadPacketOut p = (inl pkt, p') →
  url_ParseRequestURI (RequestURI (ctxRequest ctx)) = inr err →
  let r := HandleFastHTTP sched p ctx in
  StatusCode (ctxResponse (ctx_after r)) = StatusBadRequest
  ∧ respBody (ctxResponse (ctx_after r)) = bytes_of_string err
  ∧ conn_after r = p'
  ∧ logged r = [].
Proof.
  intros Hopen Hget Hread Hparse; cbv zeta. unfold HandleFastHTTP.
  rewrite Hopen, Hget. cbn [String.eqb Ascii.eqb Bool.eqb].
  by rewrite Hread, Hparse.
Qed.

(** A POST with an accepted content type and a body that decodes, under
    any scheduler: what is sent on [p.in] is a prefix of the decoded
    packets, in their order.  The answer is 200 exactly when the prefix
    is the whole payload; otherwise it is 404, the closed signal having
    been taken at the first packet left unsent. *)
Theorem post_sends_a_prefix sched (p : pollingConn) (ctx : RequestCtx)
    (form : bool) (payload : Payload) :
  isClosed p = false →
  Method (ctxRequest ctx) = "POST" →
  accepted_content_type
    (Header_Peek (reqHeader (ctxRequest ctx)) "Content-Type") form →
  Payload_ReadFrom (mkPayload [] form) (Body (ctxRequest ctx))
    = (payload, None) →
  let r := HandleFastHTTP sched p ctx in
  let status := StatusCode (ctxResponse (ctx_after r)) in
  ∃ k,
    (k ≤ length (packets payload))%nat
    ∧ in_ (conn_after r) = in_ p ++ take k (packets payload)
    ∧ ((k = length (packets payload) ∧ status = StatusOK
        ∧ closed (conn_after r) = false)
       ∨ ((k < length (packets payload))%nat ∧ status = StatusNotFound
          ∧ closed (conn_after r) = true ∧ sched k = RecvClosed)).
Proof.
  intros Hopen Hpost Haccepted Hdecode; cbv zeta. unfold HandleFastHTTP.
  rewrite Hopen, Hpost. cbn [String.eqb Ascii.eqb Bool.eqb].
  destruct (push_in_prefix sched (packets payload) 0 p)
    as (k & Hk & Hin & Hcases).
  exists k. split; [exact Hk|].
  destruct Haccepted as [params Hparse | params Hparse Hcharset];
    rewrite Hparse; cbn [String.eqb Ascii.eqb Bool.eqb];
    rewrite ?Hcharset; cbn [String.eqb Ascii.eqb Bool.eqb negb];
    rewrite Hdecode;
    destruct (push_in sched 0 (packets payload) p) as [[] q];
    cbn [fst snd] in *;
    (split; [exact Hin|]);
    (destruct Hcases as [(Hall & Hno & Hclosed & _)
                        | (Hlt & Hyes & Hclosed & Htaken)];
     try discriminate);
    [right | left | right | left]; repeat split; try done.
  all: cbn [conn_after]; by rewrite Hclosed.
Qed.

(** A request that is not a GET never takes anything away from [p.in],
    never reopens a closed conn and never logs: what was sent on [p.in]
    before is a prefix of what is sent after. *)
Theorem non_get_keeps_in sched (p : pollingConn) (ctx : RequestCtx) :
  Method (ctxRequest ctx) ≠ "GET" →
  let r := HandleFastHTTP sched p ctx in
  in_ p `prefix_of` in_ (conn_after r)
  ∧ (closed p = true → closed (conn_after r) = true)
  ∧ logged r = [].
Proof.
  intros Hget; cbv zeta. unfold HandleFastHTTP, isClosed.
  destruct (closed p) eqn:Hclosed; [cbn; by rewrite ?Hclosed|].
  rewrite (eqb_differs _ _ Hget).
  assert (∀ payload,
    let r :=
      match Payload_ReadFrom payload (Body (ctxRequest ctx)) with
      | (_, Some err) =>
        mkResult p (ctx_Error err StatusInternalServerError ctx) []
      | (payload, None) =>
        match push_in sched 0 (packets payload) p with
        | (true, p) => mkResult p (ctx_Error "closed" StatusNotFound ctx) []
        | (false, p) => mkResult p (ctx_Error "OK" StatusOK ctx) []
        end
      end in
    in_ p `prefix_of` in_ (conn_after r)
    ∧ (false = true → closed (conn_after r) = true) ∧ logged r = [])
    as Hdecode.
  { intros payload; cbv zeta.
    destruct (Payload_ReadFrom payload (Body (ctxRequest ctx)))
      as [payload' [err|]]; [done|].
    destruct (push_in_prefix sched (packets payload') 0 p)
      as (k & _ & Hin & _).
    destruct (push_in sched 0 (packets payload') p) as [[] q];
      cbn [snd] in Hin; cbn [conn_after logged];
      (split; [rewrite Hin; by apply prefix_app_r|done]). }
  destruct (String.eqb (Method (ctxRequest ctx)) "POST"); [|done].
  destruct (mime_ParseMediaType _) as [[mediatype params]|err]; [|done].
  destruct (String.eqb mediatype "application/octet-stream");
    [apply Hdecode|].
  destruct (String.eqb mediatype "text/plain"); [|done].
  destruct (negb _); [done|apply Hdecode].
Qed.

(** On a response that is fresh when the handler is entered, the status
    the handler leaves is one of 200, 400, 404, 405 and 500, for every
    request, conn, scheduler and environment. *)
Theorem status_is_one_of_five sched (p : pollingConn) (ctx : RequestCtx) :
  statusCode (ctxResponse ctx) = 0 →
  let status := StatusCode (ctxResponse (ctx_after
                  (HandleFastHTTP sched p ctx))) in
  status ∈ [StatusOK; StatusBadRequest; StatusNotFound;
            StatusMethodNotAllowed; StatusInternalServerError].
Proof.
  intros Hfresh; cbv zeta. unfold HandleFastHTTP.
  assert (∀ s, s = 200 ∨ s = 400 ∨ s = 404 ∨ s = 405 ∨ s = 500 →
          s ∈ [StatusOK; StatusBadRequest; StatusNotFound;
               StatusMethodNotAllowed; StatusInternalServerError]) as Hin.
  { intros s [->|[->|[->|[->| ->]]]]; repeat constructor. }
  destruct (isClosed p); [apply Hin; auto|].
  destruct (String.eqb (Method (ctxRequest ctx)) "GET").
  - destruct (ReadPacketOut p) as [[pkt|err] p']; [|apply Hin; auto].
    destruct (url_ParseRequestURI _) as [rURL|err]; [|apply Hin; auto].
    unfold fastWriteJSONP, fastWriteXHR, fastWriteXHR2.
    destruct (negb _); [|destruct (String.eqb _ "1")].
    + destruct (WriteTo pkt) as [text [e|]];
        [|destruct (json_Encode _) as [encoded|e]];
        apply Hin; unfold StatusCode; cbn; rewrite ?Hfresh; auto.
    + destruct (WriteTo pkt) as [text [e|]];
        apply Hin; unfold StatusCode; cbn; rewrite ?Hfresh; auto.
    + destruct (WriteTo (Packet_packet2 pkt)) as [text [e|]];
        apply Hin; unfold StatusCode; cbn; rewrite ?Hfresh; auto.
  - destruct (String.eqb (Method (ctxRequest ctx)) "POST");
      [|apply Hin; auto].
    assert (∀ payload,
      StatusCode (ctxResponse (ctx_after
        match Payload_ReadFrom payload (Body (ctxRequest ctx)) with
        | (_, Some err) =>
          mkResult p (ctx_Error err StatusInternalServerError ctx) []
        | (payload, None) =>
          match push_in sched 0 (packets payload) p with
          | (true, p) => mkResult p (ctx_Error "closed" StatusNotFound ctx) []
          | (false, p) => mkResult p (ctx_Error "OK" StatusOK ctx) []
          end
        end))
      ∈ [StatusOK; StatusBadRequest; StatusNotFound;
         StatusMethodNotAllowed; StatusInternalServerError]) as Hdecode.
    { intros payload.
      destruct (Payload_ReadFrom payload _) as [payload' [err|]];
        [apply Hin; auto|].
      destruct (push_in _ _ _ _) as [[] q]; apply Hin; auto. }
    destruct (mime_ParseMediaType _) as [[mediatype params]|err];
      [|apply Hin; auto].
    destruct (String.eqb mediatype "application/octet-stream");
      [apply Hdecode|].
    destruct (String.eqb mediatype "text/plain"); [|apply Hin; auto].
    destruct (negb _); [apply Hin; auto|apply Hdecode].
Qed.

(** JSONP is all or nothing.  On a GET that selects JSONP, either the
    whole frame is appended to the body, the status is set to 200 and
    nothing is logged; or one error is logged and body and status are as
    they were. *)
Theorem jsonp_is_all_or_nothing sched (p p' : pollingConn) (ctx : RequestCtx)
    (pkt : Packet) (rURL : URL) :
  isClosed p = false →
  Method (ctxRequest ctx) = "GET" →
  ReadPacketOut p = (inl pkt, p') →
  url_ParseRequestURI (RequestURI (ctxRequest ctx)) = inl rURL →
  Values_Get (URL_Query rURL) queryJSONP ≠ "" →
  let r := HandleFastHTTP sched p ctx in
  let before := ctxResponse ctx in
  let after := ctxResponse (ctx_after r) in
  (∃ encoded,
     respBody after
     = respBody before
       ++ bytes_of_string
            ("___eio[" +:+ Values_Get (URL_Query rURL) queryJSONP +:+ "]("
             +:+ dquote +:+ String.string_of_list_byte encoded
             +:+ dquote +:+ ");")
     ∧ statusCode after = StatusOK
     ∧ logged r = [])
  ∨ (∃ err,
       logged r = ["polling: " +:+ err]
       ∧ respBody after = respBody before
       ∧ statusCode after = statusCode before).
Proof.
  intros Hopen Hget Hread Hparse Hjsonp; cbv zeta. unfold HandleFastHTTP.
  rewrite Hopen, Hget. cbn [String.eqb Ascii.eqb Bool.eqb].
  rewrite Hread, Hparse, (eqb_differs _ _ Hjsonp). cbn [negb].
  unfold fastWriteJSONP.
  destruct (WriteTo pkt) as [text [e|]];
    [|destruct (json_Encode _) as [encoded|e]];
    [right; by exists e | left; by exists encoded | right; by exists e].
Qed.

(** An encoder that fails on the XHR or the XHR2 path is only logged:
    the bytes it wrote before failing are in the body, the Content-Type
    is set, and the status code is left as it was, so that a fresh
    response still reads 200. *)
Theorem xhr_encoder_failure_is_only_logged sched (p p' : pollingConn)
    (ctx : RequestCtx) (pkt : Packet) (rURL : URL) (partial : bytes)
    (err : error) :
  isClosed p = false →
  Method (ctxRequest ctx) = "GET" →
  ReadPacketOut p = (inl pkt, p') →
  url_ParseRequestURI (RequestURI (ctxRequest ctx)) = inl rURL →
  Values_Get (URL_Query rURL) queryJSONP = "" →
  (if String.eqb (Values_Get (URL_Query rURL) queryBase64) "1"
   then WriteTo pkt else WriteTo (Packet_packet2 pkt))
  = (partial, Some err) →
  let r := HandleFastHTTP sched p ctx in
  let before := ctxResponse ctx in
  let after := ctxResponse (ctx_after r) in
  logged r = ["polling: " +:+ err]
  ∧ respBody after = respBody before ++ partial
  ∧ statusCode after = statusCode before
  ∧ (statusCode before = 0 → StatusCode after = StatusOK)
  ∧ is_Some (respHeader after !! "Content-Type").
Proof.
  intros Hopen Hget Hread Hparse Hjsonp Hfails; cbv zeta.
  unfold HandleFastHTTP.
  rewrite Hopen, Hget. cbn [String.eqb Ascii.eqb Bool.eqb].
  rewrite Hread, Hparse, Hjsonp. cbn [String.eqb negb].
  unfold fastWriteXHR, fastWriteXHR2.
  destruct (String.eqb _ "1"); rewrite Hfails; cbn;
    (repeat split; [by unfold StatusCode; cbn; intros ->|]);
    rewrite lookup_insert_eq; by eexists.
Qed.

End handler_more.

(** [other_method_answers_405] at work: a PUT. *)
Lemma other_method_answers_405_witness :
  Method (ctxRequest Sample.put_request) ≠ "GET"
  ∧ Method (ctxRequest Sample.put_request) ≠ "POST"
  ∧ StatusCode (ctxResponse (ctx_after
      (HandleFastHTTP (env:=Sample.polling_env) Sample.all_sent
         Sample.open_conn Sample.put_request))) = 405.
Proof.
  split; [done|]. split; [done|].
  by destruct (other_method_answers_405 (env:=Sample.polling_env)
                 Sample.all_sent Sample.open_conn Sample.put_request)
    as (Hstatus & _).
Defined.

(** [get_without_packet_answers_404] at work: the conn is drained. *)
Lemma get_without_packet_answers_404_witness :
  ReadPacketOut (PollingEnv:=Sample.failing_env) Sample.open_conn
  = (inr "polling connection closed", Sample.open_conn)
  ∧ StatusCode (ctxResponse (ctx_after
      (HandleFastHTTP (env:=Sample.failing_env) Sample.all_sent
         Sample.open_conn Sample.get_xhr2))) = 404.
Proof.
  split; [reflexivity|].
  by destruct (get_without_packet_answers_404 (env:=Sample.failing_env)
                 Sample.all_sent Sample.open_conn Sample.open_conn
                 Sample.get_xhr2 "polling connection closed"
                 eq_refl eq_refl eq_refl)
    as (Hstatus & _).
Defined.

(** [get_bad_uri_loses_packet] at work. *)
Lemma get_bad_uri_loses_packet_witness :
  url_ParseRequestURI (PollingEnv:=Sample.polling_env)
    (RequestURI (ctxRequest Sample.get_broken_escape))
  = inr "invalid URL escape"
  ∧ respBody (ctxResponse (ctx_after
      (HandleFastHTTP (env:=Sample.polling_env) Sample.all_sent
         Sample.open_conn Sample.get_broken_escape)))
    = bytes_of_string "invalid URL escape".
Proof.
  split; [reflexivity|].
  by destruct (get_bad_uri_loses_packet (env:=Sample.polling_env)
                 Sample.all_sent Sample.open_conn Sample.open_conn
                 Sample.get_broken_escape Sample.hello "invalid URL escape"
                 eq_refl eq_refl eq_refl eq_refl)
    as (_ & Hbody & _).
Defined.

(** [post_sends_a_prefix] at work: of two packets one is sent. *)
Lemma post_sends_a_prefix_witness :
  accepted_content_type (env:=Sample.polling_env)
    (Header_Peek (reqHeader (ctxRequest Sample.post_utf8)) "Content-Type")
    false
  ∧ ∃ k,
      in_ (conn_after
             (HandleFastHTTP (env:=Sample.polling_env) Sample.closed_at_1
                Sample.open_conn Sample.post_utf8))
      = take k [Sample.world; Sample.hello].
Proof.
  assert (accepted_content_type (env:=Sample.polling_env)
            (Header_Peek (reqHeader (ctxRequest Sample.post_utf8))
               "Content-Type") false) as Haccepted.
  { by apply (text_plain_utf8 _ {[ "charset" := "UTF-8" ]}). }
  split; [exact Haccepted|].
  destruct (post_sends_a_prefix (env:=Sample.polling_env) Sample.closed_at_1
              Sample.open_conn Sample.post_utf8 false
              (mkPayload [Sample.world; Sample.hello] false)
              eq_refl eq_refl Haccepted eq_refl) as (k & _ & Hin & _).
  by exists k.
Defined.

(** [non_get_keeps_in] at work: a POST on a conn that holds a packet. *)
Lemma non_get_keeps_in_witness :
  Method (ctxRequest Sample.post_utf8) ≠ "GET"
  ∧ [Sample.world]
    `prefix_of` in_ (conn_after
                       (HandleFastHTTP (env:=Sample.polling_env)
                          Sample.all_sent Sample.busy_conn Sample.post_utf8)).
Proof.
  split; [done|].
  by destruct (non_get_keeps_in (env:=Sample.polling_env) Sample.all_sent
                 Sample.busy_conn Sample.post_utf8)
    as (Hprefix & _).
Defined.

(** [status_is_one_of_five] at work. *)
Lemma status_is_one_of_five_witness :
  statusCode (ctxResponse Sample.put_request) = 0
  ∧ StatusCode (ctxResponse (ctx_after
      (HandleFastHTTP (env:=Sample.polling_env) Sample.all_sent
         Sample.open_conn Sample.put_request)))
    ∈ [200; 400; 404; 405; 500].
Proof.
  split; [reflexivity|].
  by apply (status_is_one_of_five (env:=Sample.polling_env) Sample.all_sent
              Sample.open_conn Sample.put_request).
Defined.

(** [jsonp_is_all_or_nothing] at work. *)
Lemma jsonp_is_all_or_nothing_witness :
  Values_Get ({[ "j" := ["0"] ]} : gmap string (list string)) queryJSONP ≠ ""
  ∧ (logged (HandleFastHTTP (env:=Sample.polling_env) Sample.all_sent
               Sample.open_conn Sample.get_jsonp) = []
     ∨ respBody (ctxResponse (ctx_after
         (HandleFastHTTP (env:=Sample.polling_env) Sample.all_sent
            Sample.open_conn Sample.get_jsonp))) = []).
Proof.
  split; [done|].
  destruct (jsonp_is_all_or_nothing (env:=Sample.polling_env) Sample.all_sent
              Sample.open_conn Sample.open_conn Sample.get_jsonp
              Sample.hello {[ "j" := ["0"] ]} eq_refl eq_refl eq_refl eq_refl)
    as [(encoded & _ & _ & Hlogged) | (err & _ & Hbody & _)]; [done | | ].
  - by left.
  - by right.
Defined.

(** [xhr_encoder_failure_is_only_logged] at work: the textual encoder
    fails after three bytes. *)
Lemma xhr_encoder_failure_is_only_logged_witness :
  WriteTo (WriterTo:=Packet_WriterTo (PollingEnv:=Sample.failing_env))
    Sample.hello = (bytes_of_string "6:4", Some "short write")
  ∧ logged (HandleFastHTTP (env:=Sample.failing_env) Sample.all_sent
              Sample.busy_conn Sample.get_b64)
    = ["polling: short write"]
  ∧ StatusCode (ctxResponse (ctx_after
      (HandleFastHTTP (env:=Sample.failing_env) Sample.all_sent
         Sample.busy_conn Sample.get_b64))) = 200.
Proof.
  split; [reflexivity|].
  destruct (xhr_encoder_failure_is_only_logged (env:=Sample.failing_env)
              Sample.all_sent Sample.busy_conn Sample.busy_conn
              Sample.get_b64 Sample.hello {[ "b64" := ["1"] ]}
              (bytes_of_string "6:4") "short write"
              eq_refl eq_refl eq_refl eq_refl eq_refl eq_refl)
    as (Hlogged & _ & _ & Hstatus & _).
  split; [exact Hlogged | by apply Hstatus].
Defined.
End PollingSpec.

(* ===================================================================== *)
(** * Properties of the socket.io dispatcher                             *)
(* ===================================================================== *)

Module SocketioSpec.
Import socketio.

Section dispatcher.
Context {env : SocketEnv}.

(** C10. When the namespace of a packet cannot be attached, a Connect or
    a Disconnect is dropped: nothing is called besides [attachnsp].  For
    a packet of any other type the one further call is [EmitError], with
    the namespace of the packet and the text of
    [ErrorNamespaceUnavaialble].  No handler of events or of
    acknowledgements runs in either case. *)
Theorem process_unattached_namespace (p : Packet) :
  attachnsp (Namespace p) = None →
  (Type_ p = PacketTypeConnect ∨ Type_ p = PacketTypeDisconnect →
   process p = [CallAttachnsp (Namespace p)])
  ∧ (Type_ p ≠ PacketTypeConnect → Type_ p ≠ PacketTypeDisconnect →
     process p = [CallAttachnsp (Namespace p);
                  CallEmitError (Namespace p) ErrorNamespaceUnavaialble])
  ∧ ∀ c, c ∈ process p → is_handler_call c = false.
Proof.
  intros Hnil. unfold process. rewrite Hnil.
  unfold PacketTypeConnect, PacketTypeDisconnect.
  split; [|split].
  - intros Htype. by replace (1 <? Type_ p)%N with false by (symmetry; apply N.ltb_ge; lia).
  - intros H0 H1. by replace (1 <? Type_ p)%N with true by (symmetry; apply N.ltb_lt; lia).
  - intros c Hin. destruct (1 <? Type_ p)%N;
      repeat (apply elem_of_cons in Hin as [->|Hin]; [done|]);
      by apply elem_of_nil in Hin.
Qed.

(** C5, as the code has it.  An Event or BinaryEvent with an id, in a
    namespace that is attached.  When the handler returns no error, [ack]
    is called once, with the packet, its id as it was, and the values the
    handler returned as data, nil when it returned none.  When parsing the
    data or the handler returns an error, the error goes to [onError] if
    the socket has one, nowhere otherwise, and [ack] is not called. *)
Theorem process_event_with_id (p : Packet) (nsp : nspRef) (id : N) :
  attachnsp (Namespace p) = Some nsp →
  Type_ p = PacketTypeEvent ∨ Type_ p = PacketTypeBinaryEvent →
  ID p = Some id →
  (∀ ev data bin v,
     ParseData p = inl (ev, data, bin) → ev ≠ "" →
     fireEvent nsp ev data bin = (v, None) →
     let reply :=
       with_Data (match v with
                  | None => Nil
                  | Some values => Slice (map Interface values)
                  end) p in
     ID reply = Some id
     ∧ Namespace reply = Namespace p
     ∧ process p
       = [CallAttachnsp (Namespace p); CallParseData p;
          CallFireEvent nsp ev data bin; CallAck reply]
         ++ match ack reply with
            | Some err => report (Namespace p) (OfError err)
            | None => []
            end
     ∧ length (filter (λ c, is_CallAck c = true) (process p)) = 1%nat)
  ∧ (∀ err,
       ParseData p = inr err →
       process p
       = [CallAttachnsp (Namespace p); CallParseData p]
         ++ (if onError then [CallOnError (Namespace p) (OfError err)]
             else [])
       ∧ ∀ c, c ∈ process p → is_CallAck c = false)
  ∧ (∀ ev data bin v err,
       ParseData p = inl (ev, data, bin) → ev ≠ "" →
       fireEvent nsp ev data bin = (v, Some err) →
       process p
       = [CallAttachnsp (Namespace p); CallParseData p;
          CallFireEvent nsp ev data bin]
         ++ (if onError then [CallOnError (Namespace p) (OfError err)]
             else [])
       ∧ ∀ c, c ∈ process p → is_CallAck c = false).
Proof.
  intros Hnsp Htype Hid.
  assert (process p
          = CallAttachnsp (Namespace p) :: CallParseData p ::
            match ParseData p with
            | inr err => report (Namespace p) (OfError err)
            | inl (event, data, bin) =>
              if String.eqb event "" then []
              else
                CallFireEvent nsp event data bin ::
                match fireEvent nsp event data bin with
                | (_, Some err) => report (Namespace p) (OfError err)
                | (v, None) =>
                  let reply :=
                    with_Data (match v with
                               | None => Nil
                               | Some values => Slice (map Interface values)
                               end) p in
                  CallAck reply ::
                  match ack reply with
                  | Some err => report (Namespace p) (OfError err)
                  | None => []
                  end
                end
            end) as Hprocess.
  { unfold process. rewrite Hnsp, Hid.
    destruct Htype as [-> | ->]; cbn [N.eqb Pos.eqb orb];
      destruct (ParseData p) as [[[ev data] bin]|err]; try done;
      destruct (String.eqb ev ""); try done;
      destruct (fireEvent nsp ev data bin) as [[values|] [err|]]; done. }
  rewrite Hprocess. clear Hprocess.
  split; [|split].
  - intros ev data bin v Hparse Hev Hfire; cbv zeta.
    rewrite Hparse, (proj2 (String.eqb_neq _ _) Hev), Hfire.
    split; [by destruct v|]. split; [by destruct v|]. split; [done|].
    cbn. destruct (ack _); [|done]. unfold report. by destruct onError.
  - intros err Hparse. rewrite Hparse. unfold report.
    split; [done|]. intros c Hin.
    destruct onError;
      repeat (apply elem_of_cons in Hin as [->|Hin]; [done|]);
      by apply elem_of_nil in Hin.
  - intros ev data bin v err Hparse Hev Hfire.
    rewrite Hparse, (proj2 (String.eqb_neq _ _) Hev), Hfire. unfold report.
    split; [done|]. intros c Hin.
    destruct onError;
      repeat (apply elem_of_cons in Hin as [->|Hin]; [done|]);
      by apply elem_of_nil in Hin.
Qed.

End dispatcher.

(** [process_unattached_namespace] at work: an Event for ["/chat"], which
    the sample socket does not attach. *)
Lemma process_unattached_namespace_witness :
  attachnsp (SocketEnv:=Sample.socket_env true) "/chat" = None
  ∧ process (env:=Sample.socket_env true)
      (Sample.event_packet "/chat" (Some 1%N) 0)
    = [CallAttachnsp "/chat"; CallEmitError "/chat" "namespace unavailable"].
Proof.
  split; [reflexivity|].
  destruct (process_unattached_namespace (env:=Sample.socket_env true)
              (Sample.event_packet "/chat" (Some 1%N) 0) eq_refl)
    as (_ & Hother & _).
  by apply Hother.
Defined.

(** [process_event_with_id] at work: the handler ["add"] returns one
    value, which the acknowledgement carries. *)
Lemma process_event_with_id_witness :
  attachnsp (SocketEnv:=Sample.socket_env true) "/" = Some 0%nat
  ∧ process (env:=Sample.socket_env true)
      (Sample.event_packet "/" (Some 1%N) 0)
    = [CallAttachnsp "/";
       CallParseData (Sample.event_packet "/" (Some 1%N) 0);
       CallFireEvent 0%nat "add" (bytes_of_string "[1,2]") [];
       CallAck (mkPacket PacketTypeEvent "/" (Some 1%N) (Slice [Opaque 3]))].
Proof.
  split; [reflexivity|].
  destruct (process_event_with_id (env:=Sample.socket_env true)
              (Sample.event_packet "/" (Some 1%N) 0) 0%nat 1%N
              eq_refl (or_introl eq_refl) eq_refl) as (Hok & _).
  destruct (Hok "add" (bytes_of_string "[1,2]") [] 
              (Some [mkValue (Opaque 3)]) eq_refl) as (_ & _ & Hcalls & _);
    [done | reflexivity |].
  exact Hcalls.
Defined.

(** C5, as the claim has it, fails: on a socket without an [onError]
    callback the error of the handler is not surfaced, to [onError] or
    anywhere else. *)
Lemma handler_error_without_onError :
  let p := Sample.event_packet "/" (Some 1%N) 1 in
  ParseData (SocketEnv:=Sample.socket_env false) p
  = inl ("fail", bytes_of_string "[]", [])
  ∧ fireEvent (SocketEnv:=Sample.socket_env false) 0%nat "fail"
      (bytes_of_string "[]") [] = (None, Some "handler failed")
  ∧ process (env:=Sample.socket_env false) p
    = [CallAttachnsp "/"; CallParseData p;
       CallFireEvent 0%nat "fail" (bytes_of_string "[]") []]
  ∧ ¬ ∃ ns arg, CallOnError ns arg ∈ process (env:=Sample.socket_env false) p.
Proof.
  cbv zeta. split; [reflexivity|]. split; [reflexivity|].
  split; [reflexivity|].
  intros (ns & arg & Hin). cbn in Hin.
  repeat (apply elem_of_cons in Hin as [Hin|Hin]; [discriminate Hin|]).
  by apply elem_of_nil in Hin.
Qed.

(* --------------------------------------------------------------------- *)
(** ** Further properties of the dispatcher                              *)
(* --------------------------------------------------------------------- *)

Section dispatcher_more.
Context {env : SocketEnv}.

(** Case analysis on everything [process] looks at. *)
Ltac cases p :=
  unfold process, report;
  destruct (attachnsp (Namespace p)) as [nsp|];
  [ destruct (Type_ p =? PacketTypeConnect)%N eqn:HConnect;
    [|destruct (Type_ p =? PacketTypeDisconnect)%N eqn:HDisconnect;
      [|destruct ((Type_ p =? PacketTypeEvent)
                  || (Type_ p =? PacketTypeBinaryEvent))%N eqn:HEvent;
        [ destruct (ParseData p) as [[[ev data] bin]|err] eqn:HParse;
          [ destruct (String.eqb ev "") eqn:Hname;
            [|destruct (fireEvent nsp ev data bin) as [v [err|]] eqn:HFire;
              [|destruct (ID p) as [id|] eqn:HID;
                [destruct (ack _) as [err|] eqn:HAck|]]]|]
        | destruct ((Type_ p =? PacketTypeAck)
                    || (Type_ p =? PacketTypeBinaryAck))%N eqn:HAckType;
          [ destruct (ID p) as [id|] eqn:HID;
            [destruct (ParseData p) as [[[ev data] bin]|err] eqn:HParse|]
          | destruct (Type_ p =? PacketTypeError)%N eqn:HError ]]]]
  | destruct (PacketTypeDisconnect <? Type_ p)%N eqn:HOther ];
  try destruct onError.

Ltac member H :=
  repeat (apply elem_of_cons in H as [H|H]; [try discriminate H|]);
  try (by apply elem_of_nil in H).

(** An acknowledgement is sent only for an Event or BinaryEvent that has
    an id, in an attached namespace, whose data parsed to a named event
    and whose handler returned no error.  It is the packet itself, with
    its type, namespace and id, and the values of the handler as data. *)
Theorem ack_only_after_successful_handler (p q : Packet) :
  CallAck q ∈ process p →
  (Type_ p = PacketTypeEvent ∨ Type_ p = PacketTypeBinaryEvent)
  ∧ is_Some (ID p)
  ∧ ID q = ID p ∧ Namespace q = Namespace p ∧ Type_ q = Type_ p
  ∧ ∃ nsp ev data bin v,
      attachnsp (Namespace p) = Some nsp
      ∧ ParseData p = inl (ev, data, bin)
      ∧ ev ≠ ""
      ∧ fireEvent nsp ev data bin = (v, None)
      ∧ Data q = match v with
                 | None => Nil
                 | Some values => Slice (map Interface values)
                 end.
Proof.
  intros Hin. revert Hin. cases p; intros Hin; member Hin;
    injection Hin as ->;
    (split; [apply orb_prop in HEvent as [?%N.eqb_eq|?%N.eqb_eq]; auto|]);
    (split; [by eexists|]);
    (split; [by destruct v|]); (split; [by destruct v|]);
    (split; [by destruct v|]);
    exists nsp, ev, data, bin, v;
    (repeat split; try done;
     [by apply String.eqb_neq | by destruct v]).
Qed.

(** For one packet [process] parses the data at most once, runs at most
    one handler, sends at most one reply (an acknowledgement or an error
    packet) and calls [onError] at most once. *)
Theorem process_at_most_once (p : Packet) :
  (length (List.filter is_CallParseData (process p)) ≤ 1)%nat
  ∧ (length (List.filter is_handler_call (process p)) ≤ 1)%nat
  ∧ (length (List.filter is_reply (process p)) ≤ 1)%nat
  ∧ (length (List.filter is_CallOnError (process p)) ≤ 1)%nat.
Proof. cases p; cbn; lia. Qed.

(** A handler runs only on data that parsed, in an attached namespace: an
    event handler for an Event or BinaryEvent with a non-empty name, an
    acknowledgement handler for an Ack or BinaryAck under the id of the
    packet. *)
Theorem handler_only_on_parsed_data (p : Packet) (c : Call) :
  c ∈ process p →
  is_handler_call c = true →
  ∃ nsp ev data bin,
    attachnsp (Namespace p) = Some nsp
    ∧ ParseData p = inl (ev, data, bin)
    ∧ ((c = CallFireEvent nsp ev data bin ∧ ev ≠ ""
        ∧ (Type_ p = PacketTypeEvent ∨ Type_ p = PacketTypeBinaryEvent))
       ∨ (∃ id, c = CallFireAck nsp id data bin ∧ ID p = Some id
          ∧ (Type_ p = PacketTypeAck ∨ Type_ p = PacketTypeBinaryAck))).
Proof.
  intros Hin Hhandler. revert Hin.
  cases p; intros Hin; member Hin; subst c; try discriminate Hhandler;
    exists nsp, ev, data, bin; (split; [done|]); (split; [done|]);
    first
      [ left; split; [done|]; split; [by apply String.eqb_neq|];
        apply orb_prop in HEvent as [?%N.eqb_eq|?%N.eqb_eq]; by auto
      | right; exists id; split; [done|]; split; [done|];
        apply orb_prop in HAckType as [?%N.eqb_eq|?%N.eqb_eq]; by auto ].
Qed.

(** An Event whose data parses to the empty event name is dropped, with
    or without an id: no handler runs, nothing is acknowledged and
    nothing is reported. *)
Theorem empty_event_name_is_dropped (p : Packet) (nsp : nspRef)
    (data : bytes) (bin : list bytes) :
  attachnsp (Namespace p) = Some nsp →
  Type_ p = PacketTypeEvent ∨ Type_ p = PacketTypeBinaryEvent →
  ParseData p = inl ("", data, bin) →
  process p = [CallAttachnsp (Namespace p); CallParseData p].
Proof.
  intros Hnsp Htype Hparse. unfold process. rewrite Hnsp.
  destruct Htype as [-> | ->]; cbn [N.eqb Pos.eqb orb PacketTypeEvent
    PacketTypeBinaryEvent PacketTypeConnect PacketTypeDisconnect];
    by rewrite Hparse.
Qed.

(** An Ack or BinaryAck in an attached namespace.  Without an id it is
    dropped and its data is not parsed.  With an id, the acknowledgement
    handler runs under that id on the parsed data, or the parse error is
    reported.  Nothing is sent back in any case. *)
Theorem process_ack_packet (p : Packet) (nsp : nspRef) :
  attachnsp (Namespace p) = Some nsp →
  Type_ p = PacketTypeAck ∨ Type_ p = PacketTypeBinaryAck →
  match ID p with
  | None => process p = [CallAttachnsp (Namespace p)]
  | Some id =>
    match ParseData p with
    | inl (_, data, bin) =>
      process p = [CallAttachnsp (Namespace p); CallParseData p;
                   CallFireAck nsp id data bin]
    | inr err =>
      process p = [CallAttachnsp (Namespace p); CallParseData p]
                  ++ (if onError
                      then [CallOnError (Namespace p) (OfError err)]
                      else [])
    end
  end
  ∧ List.filter is_reply (process p) = [].
Proof.
  intros Hnsp Htype. unfold process, report. rewrite Hnsp.
  destruct Htype as [-> | ->]; cbn [N.eqb Pos.eqb orb PacketTypeAck
    PacketTypeBinaryAck PacketTypeEvent PacketTypeBinaryEvent
    PacketTypeConnect PacketTypeDisconnect];
    (destruct (ID p) as [id|]; [|done]);
    (destruct (ParseData p) as [[[ev data] bin]|err]; [done|]);
    by destruct onError.
Qed.

(** [process] stays in the namespace of the packet: it starts by
    attaching it, and every call that names a namespace names that one. *)
Theorem process_stays_in_namespace (p : Packet) :
  head (process p) = Some (CallAttachnsp (Namespace p))
  ∧ ∀ c ns, c ∈ process p → call_namespace c = Some ns → ns = Namespace p.
Proof.
  split; [done|]. intros c ns Hin. revert Hin.
  cases p; intros Hin; member Hin; subst c; cbn; intros [= <-]; try done;
    by destruct v.
Qed.

End dispatcher_more.

(** [ack_only_after_successful_handler] at work. *)
Lemma ack_only_after_successful_handler_witness :
  CallAck (mkPacket PacketTypeEvent "/" (Some 1%N) (Slice [Opaque 3]))
  ∈ process (env:=Sample.socket_env true)
      (Sample.event_packet "/" (Some 1%N) 0)
  ∧ ID (mkPacket PacketTypeEvent "/" (Some 1%N) (Slice [Opaque 3]))
    = ID (Sample.event_packet "/" (Some 1%N) 0).
Proof.
  assert (CallAck (mkPacket PacketTypeEvent "/" (Some 1%N) (Slice [Opaque 3]))
          ∈ process (env:=Sample.socket_env true)
              (Sample.event_packet "/" (Some 1%N) 0)) as Hin.
  { cbn. repeat constructor. }
  split; [exact Hin|].
  by destruct (ack_only_after_successful_handler
                 (env:=Sample.socket_env true) _ _ Hin)
    as (_ & _ & Hid & _).
Defined.

(** [handler_only_on_parsed_data] at work. *)
Lemma handler_only_on_parsed_data_witness :
  CallFireEvent 0%nat "add" (bytes_of_string "[1,2]") []
  ∈ process (env:=Sample.socket_env true)
      (Sample.event_packet "/" (Some 1%N) 0)
  ∧ ∃ nsp, attachnsp (SocketEnv:=Sample.socket_env true) "/" = Some nsp.
Proof.
  assert (CallFireEvent 0%nat "add" (bytes_of_string "[1,2]") []
          ∈ process (env:=Sample.socket_env true)
              (Sample.event_packet "/" (Some 1%N) 0)) as Hin.
  { cbn. repeat constructor. }
  split; [exact Hin|].
  destruct (handler_only_on_parsed_data (env:=Sample.socket_env true)
              _ _ Hin eq_refl) as (nsp & ev & data & bin & Hnsp & _).
  by exists nsp.
Defined.

(** [empty_event_name_is_dropped] at work: an Event with an id whose
    data names no event. *)
Lemma empty_event_name_is_dropped_witness :
  ParseData (SocketEnv:=Sample.unnamed_env)
    (Sample.event_packet "/" (Some 1%N) 2) = inl ("", [], [])
  ∧ process (env:=Sample.unnamed_env)
      (Sample.event_packet "/" (Some 1%N) 2)
    = [CallAttachnsp "/";
       CallParseData (Sample.event_packet "/" (Some 1%N) 2)].
Proof.
  split; [reflexivity|].
  by apply (empty_event_name_is_dropped (env:=Sample.unnamed_env)
              (Sample.event_packet "/" (Some 1%N) 2) 0%nat [] []);
    [| left |].
Defined.

(** [process_ack_packet] at work: an Ack without an id. *)
Lemma process_ack_packet_witness :
  attachnsp (SocketEnv:=Sample.socket_env true) "/" = Some 0%nat
  ∧ process (env:=Sample.socket_env true)
      (mkPacket PacketTypeAck "/" None Nil) = [CallAttachnsp "/"].
Proof.
  split; [reflexivity|].
  by destruct (process_ack_packet (env:=Sample.socket_env true)
                 (mkPacket PacketTypeAck "/" None Nil) 0%nat eq_refl
                 (or_introl eq_refl)) as [Hcalls _].
Defined.
End SocketioSpec.

(* ===================================================================== *)
(** * Properties of the server behind fasthttp                           *)
(* ===================================================================== *)

Module ServerSpec.
Import engine.

Section server_spec.
Context {env : ServerEnv}.

(** Only the polling transport is served: [getFastTransport] has no
    transport for ["websocket"] nor for any other name. *)
Lemma getFastTransport_polling_only (name : string) :
  getFastTransport name
  = if decide (name = "polling") then Some FastPollingTransport else None.
Proof.
  unfold getFastTransport, transportWebsocket, transportPolling.
  destruct (decide (name = "polling")) as [->|Hother]; [done|].
  destruct (String.eqb name "websocket"); [done|].
  by rewrite (proj2 (String.eqb_neq _ _) Hother).
Qed.

(** A request the server refuses is answered 400 and changes nothing: no
    conn is accepted, no session is created, looked at or upgraded.  This
    is so for a request URI that does not parse, for another protocol
    version, for every transport but polling (websocket among them), and
    for a session id the manager does not know. *)
Theorem server_refuses sched (choice : serverSelect) (ctx : RequestCtx)
    (s : Server) :
  refused s ctx →
  ∃ ctx',
    Server_HandleFastHTTP sched choice ctx s = Some (ctx', s)
    ∧ StatusCode (ctxResponse ctx') = StatusBadRequest
    ∧ ctxRequest ctx' = ctxRequest ctx.
Proof.
  intros Hrefused. unfold Server_HandleFastHTTP.
  destruct Hrefused as [err Hparse | rURL Hparse Hversion
                       | rURL Hparse Htransport | rURL Hparse Hsid Hunknown];
    rewrite Hparse; [by eexists | | |].
  - rewrite (proj2 (String.eqb_neq _ _) Hversion). by eexists.
  - destruct (negb _); [by eexists|].
    rewrite getFastTransport_polling_only, decide_False by done.
    by eexists.
  - destruct (negb _); [by eexists|].
    destruct (getFastTransport _); [|by eexists].
    rewrite (proj2 (String.eqb_neq _ _) Hsid), Hunknown. by eexists.
Qed.

(** A request for a session the manager knows, whose transport is
    polling: the server accepts no conn and upgrades nothing, and the
    answer is the one the polling conn of the session gives.  The only
    things that change are that conn and the log.  A session whose conn
    is not a polling conn leaves the request unanswered. *)
Theorem server_hands_request_to_session sched (choice : serverSelect)
    (ctx : RequestCtx) (s : Server) (sid : string) (ß : SessRef)
    (sess : Session) :
  well_formed ctx sid →
  sid ≠ "" →
  sessionManager s !! sid = Some ß →
  sessionHeap s !! ß = Some sess →
  transportName sess = "polling" →
  match pollingHeap s !! Conn (sessSocket sess) with
  | Some p =>
    let r := HandleFastHTTP sched p ctx in
    Server_HandleFastHTTP sched choice ctx s
    = Some (ctx_after r,
            mkServer (pingInterval s) (pingTimeout s) (sessionManager s)
                     (sessionHeap s)
                     (<[Conn (sessSocket sess) := conn_after r]>
                        (pollingHeap s))
                     (nextConn s)
                     (srvCalls s ++ map SrvLog (logged r)))
  | None => Server_HandleFastHTTP sched choice ctx s = Some (ctx, s)
  end.
Proof.
  intros (rURL & Hparse & Hversion & Htransport & Hsid) Hnamed Hknown Hsess
         Hpolling.
  unfold Server_HandleFastHTTP.
  rewrite Hparse, Hversion, String.eqb_refl, Htransport. cbn [negb].
  rewrite getFastTransport_polling_only, decide_True by done.
  rewrite Hsid, (proj2 (String.eqb_neq _ _) Hnamed), Hknown, Hsess.
  cbn [mbind option_bind FastPollingTransport Name]. rewrite Hpolling.
  cbn [transportPolling String.eqb Ascii.eqb Bool.eqb negb].
  unfold Session_HandleFastHTTP, Socket_HandleFastHTTP. rewrite Hsess.
  cbn [mbind option_bind]. by destruct (pollingHeap s !! _).
Qed.


(** A polling request for a session that is on another transport: the
    server allocates a polling conn and calls its [upgrade] with the
    session, the name ["polling"] and that conn, before the session
    handles the request. *)
Theorem server_upgrades_session_of_other_transport sched
    (choice : serverSelect) (ctx : RequestCtx) (s : Server) (sid : string)
    (ß : SessRef) (sess : Session) :
  well_formed ctx sid →
  sid ≠ "" →
  sessionManager s !! sid = Some ß →
  sessionHeap s !! ß = Some sess →
  transportName sess ≠ "polling" →
  let conn := nextConn s in
  let accepted := (fastPollingAcceptor_Accept ctx s).2 in
  Server_HandleFastHTTP sched choice ctx s
  = Session_HandleFastHTTP sched ß ctx
      (Server_upgrade
         (with_srvCalls (srvCalls s ++ [SrvUpgrade ß "polling" conn])
            accepted)
         ß "polling" conn).
Proof.
  intros (rURL & Hparse & Hversion & Htransport & Hsid) Hnamed Hknown Hsess
         Hother; cbv zeta.
  unfold Server_HandleFastHTTP.
  rewrite Hparse, Hversion, String.eqb_refl, Htransport. cbn [negb].
  rewrite getFastTransport_polling_only, decide_True by done.
  rewrite Hsid, (proj2 (String.eqb_neq _ _) Hnamed), Hknown, Hsess.
  cbn [mbind option_bind FastPollingTransport Name Accept].
  unfold transportPolling.
  by rewrite (proj2 (String.eqb_neq _ _) Hother).
Qed.

End server_spec.

(** [server_refuses] at work: a websocket request through fasthttp. *)
Lemma server_refuses_witness :
  refused (env:=Sample.server_env) Sample.server0
    (Sample.server_request "/engine.io/?EIO=3&transport=websocket&sid=s0")
  ∧ ∃ ctx',
      Server_HandleFastHTTP (env:=Sample.server_env) Sample.all_sent
        SendSession
        (Sample.server_request "/engine.io/?EIO=3&transport=websocket&sid=s0")
        Sample.server0 = Some (ctx', Sample.server0)
      ∧ StatusCode (ctxResponse ctx') = 400.
Proof.
  assert (refused (env:=Sample.server_env) Sample.server0
            (Sample.server_request
               "/engine.io/?EIO=3&transport=websocket&sid=s0")) as Hrefused.
  { by apply (refused_transport _ _
                {[ "EIO" := ["3"]; "transport" := ["websocket"];
                   "sid" := ["s0"] ]}). }
  split; [exact Hrefused|].
  destruct (server_refuses (env:=Sample.server_env) Sample.all_sent
              SendSession _ _ Hrefused) as (ctx' & Hresult & Hstatus & _).
  by exists ctx'.
Defined.

(** [server_hands_request_to_session] at work: a GET for the polling
    session ["s0"], answered in xhr2 form. *)
Lemma server_hands_request_to_session_witness :
  well_formed (env:=Sample.server_env)
    (Sample.server_request "/engine.io/?EIO=3&transport=polling&sid=s0") "s0"
  ∧ ∃ ctx' s',
      Server_HandleFastHTTP (env:=Sample.server_env) Sample.all_sent
        SendSession
        (Sample.server_request "/engine.io/?EIO=3&transport=polling&sid=s0")
        Sample.server0 = Some (ctx', s')
      ∧ sessionManager s' = sessionManager Sample.server0.
Proof.
  assert (well_formed (env:=Sample.server_env)
            (Sample.server_request
               "/engine.io/?EIO=3&transport=polling&sid=s0") "s0")
    as Hwell.
  { by exists {[ "EIO" := ["3"]; "transport" := ["polling"];
                "sid" := ["s0"] ]}. }
  split; [exact Hwell|].
  pose proof (server_hands_request_to_session (env:=Sample.server_env)
                Sample.all_sent SendSession _ Sample.server0 "s0" 0%nat
                (mkSession (mkSocket 0%nat 85000 60000 "polling" false)
                           "polling")
                Hwell) as Hserved.
  specialize (Hserved ltac:(done) eq_refl eq_refl eq_refl).
  cbn in Hserved. by eexists _, _.
Defined.


(** [server_upgrades_session_of_other_transport] at work: a polling
    request for the session ["w0"], which is on a websocket. *)
Lemma server_upgrades_session_of_other_transport_witness :
  well_formed (env:=Sample.server_env)
    (Sample.server_request "/engine.io/?EIO=3&transport=polling&sid=w0") "w0"
  ∧ ∃ ctx' s',
      Server_HandleFastHTTP (env:=Sample.server_env) Sample.all_sent
        SendSession
        (Sample.server_request "/engine.io/?EIO=3&transport=polling&sid=w0")
        Sample.server0 = Some (ctx', s')
      ∧ srvCalls s' = [SrvUpgrade 1%nat "polling" 2%nat].
Proof.
  assert (well_formed (env:=Sample.server_env)
            (Sample.server_request
               "/engine.io/?EIO=3&transport=polling&sid=w0") "w0")
    as Hwell.
  { by exists {[ "EIO" := ["3"]; "transport" := ["polling"];
                "sid" := ["w0"] ]}. }
  split; [exact Hwell|].
  pose proof (server_upgrades_session_of_other_transport
                (env:=Sample.server_env) Sample.all_sent SendSession _
                Sample.server0 "w0" 1%nat
                (mkSession (mkSocket 1%nat 85000 60000 "websocket" false)
                           "websocket")
                Hwell ltac:(done) eq_refl eq_refl ltac:(done)) as Hupgraded.
  rewrite Hupgraded. by eexists _, _.
Defined.

End ServerSpec.
